(** * RAID-PIR: client and vendor control logic, embedded in Rocq

    A shallow embedding of the parts of [raidpir_client.py] and
    [raidpir_vendor.py] that decide the chunk layout, the option checks, the
    block selection, the file integrity check and the vendor's mirror map.

    Conventions of the embedding:
    - Python [int] is [Z]; Python [float] is the kernel's binary64 [float];
      [str] is [string]; [bytes] is [list byte].
    - A call that may raise returns an [outcome]; [sys.exit(n)] is the
      outcome [Exited n], an uncaught exception is [Raised e].
    - Everything a function does to the outside world (stdout, files, the
      network, the log) is recorded, in program order, in a list of events.
    - Functions of [raidpirlib], [session], [simplexorrequestor] and
      [msgpack] are not part of these files: they are fields of an interface
      record, and theorems hold for every implementation of it. *)

From Stdlib Require Import ZArith List String Ascii Bool Lia DecimalString Sorted.
From Stdlib.Strings Require Import Byte.
From Stdlib Require Import PrimFloat Uint63 Floats.
Import ListNotations.
Set Warnings "-register-all".
Local Open Scope string_scope.
Local Open Scope list_scope.
Local Open Scope Z_scope.

(** ** Python values shared by both programs *)

Module Py.

(** A raised exception: its class name and what [str(e)] returns. *)
Record exn : Type := Exn { exc_class : string; exc_str : string }.

(** How a call ends. *)
Inductive outcome (A : Type) : Type :=
| Returned (a : A)
| Exited (code : Z)
| Raised (e : exn).
Arguments Returned {A} a.
Arguments Exited {A} code.
Arguments Raised {A} e.

Definition bytes : Type := list byte.

(** [needle in haystack] on two [str]. *)
Fixpoint str_in (needle haystack : string) : bool :=
  if String.prefix needle haystack then true
  else match haystack with
       | EmptyString => false
       | String _ rest => str_in needle rest
       end.

Fixpoint bytes_eqb (a b : bytes) : bool :=
  match a, b with
  | [], [] => true
  | x :: a', y :: b' => Byte.eqb x y && bytes_eqb a' b'
  | _, _ => false
  end.

(** Int to float, as Python converts an int that meets a float. Exact for
    [|z| < 2^53]. The conversion goes through a 63-bit integer: an int of
    [2^63] or more in absolute value is reduced modulo [2^63] here, where
    Python rounds it to the nearest float or raises OverflowError, so this
    is Python's conversion only below that size. *)
Definition float_of_int (z : Z) : float :=
  match z with
  | Z0 => PrimFloat.of_uint63 0
  | Zpos _ => PrimFloat.of_uint63 (Uint63.of_Z z)
  | Zneg p => PrimFloat.opp (PrimFloat.of_uint63 (Uint63.of_Z (Zpos p)))
  end.

(** The ints that are floats: every int of this range has a float of its own
    value, and both Python and [float_of_int] convert it to that float. What
    is proved of [float_of_int] for every int of an option is proved for the
    ints of this range. *)
Definition float_exact (z : Z) : Prop := - 2 ^ 53 <= z <= 2 ^ 53.

(** [str(z)] of an int. *)
Definition str_int (z : Z) : string := DecimalString.NilZero.string_of_int (Z.to_int z).

(** [b'...'] *)
Definition b (s : string) : bytes := list_byte_of_string s.

End Py.

(** ** The client, [raidpir_client.py] *)

Module Client.
Import Py.

(** *** Data *)

(** The entries of the manifest that the client reads. [lib.parse_manifest]
    validates the mapping, so the keys are fields. *)
Record fileinfo : Type := FileInfo { filename : string; hash : bytes }.

Record manifest : Type := Manifest {
  blockcount : Z;
  blocksize : Z;
  hashalgorithm : string;
  vendorhostname : string;
  vendorport : Z;
  fileinfolist : list fileinfo }.

(** [_commandlineoptions]. [filestoretrieve] is the attribute that
    [parse_options] adds; optparse itself does not set it. *)
Record options : Type := Options {
  retrievemanifestfrom : string;
  printfiles : bool;
  vendorip : option string;
  manifestfilename : string;
  numberofmirrors : Z;
  redundancy : option Z;
  rng : bool;
  parallel : bool;
  batch : bool;
  timing : bool;
  comment : string;
  filestoretrieve : list string }.

Definition set_rng (o : options) (b : bool) : options :=
  Options (retrievemanifestfrom o) (printfiles o) (vendorip o)
          (manifestfilename o) (numberofmirrors o) (redundancy o)
          b (parallel o) (batch o) (timing o) (comment o)
          (filestoretrieve o).

Definition set_filestoretrieve (o : options) (l : list string) : options :=
  Options (retrievemanifestfrom o) (printfiles o) (vendorip o)
          (manifestfilename o) (numberofmirrors o) (redundancy o)
          (rng o) (parallel o) (batch o) (timing o) (comment o) l.

(** A mirror record of the mirror list: its ip and port. *)
Definition mirrorinfolist : Type := list (string * Z).

(** [blocknumber -> blockcontents], in insertion order. *)
Definition blockdict : Type := list (Z * bytes).

(** A request tuple [thisrequest] of a requestor: the socket of its mirror
    ([thisrequest[0]['sock']]), its payload ([thisrequest[2]]) and, for a
    chunk requestor, its request type ([thisrequest[3]]). *)
Record xorrequest : Type := XorRequest { sock : Z; payload : bytes; rqtype : Z }.

(** *** Effects *)

(** One argument of [print] or one piece of a string written to a log. *)
Inductive printarg : Type :=
| AStr (s : string)
| AInt (z : Z)
| AOptInt (z : option Z)
| ABool (b : bool)
| AStrList (l : list string)
| AMirrors (l : mirrorinfolist)
| AElapsed.                       (* a duration read off the clock *)

Inductive event : Type :=
| Print (args : list printarg)                      (* print(...) *)
| ManifestRequest (vendor : string)                 (* network: lib.retrieve_rawmanifest *)
| MirrorlistRequest (host : string) (port : option Z) (* network: lib.retrieve_mirrorinfolist *)
| MirrorRequests (blocks : list Z)                  (* network: the requestor and its workers *)
| FileRead (name : string)                          (* open(name, "rb").read() *)
| FileWrite (name : string) (data : bytes)          (* open(name, "wb").write(data) *)
| LogOpen (name : string)                           (* open(name, "a") *)
| LogWrite (args : list printarg)                   (* _timing_log.write(...) *)
| XorSend (kind : Z) (socket : Z) (payload : bytes) (* network: lib.request_xorblock* *)
| NotifyFailure (thisrequest : xorrequest)          (* rxgobj.notify_failure(thisrequest) *)
| StdoutWrite (s : string).                         (* sys.stdout.write(s); flush *)

Definition is_network (e : event) : bool :=
  match e with
  | ManifestRequest _ | MirrorlistRequest _ _ | MirrorRequests _
  | XorSend _ _ _ => true
  | _ => false
  end.

(** The events of block retrieval: the mirror list and the mirrors. *)
Definition is_retrieval (e : event) : bool :=
  match e with
  | MirrorlistRequest _ _ | MirrorRequests _ | XorSend _ _ _ => true
  | _ => false
  end.

Definition is_filewrite (e : event) : bool :=
  match e with FileWrite _ _ => true | _ => false end.

Definition network_free (t : list event) : bool := forallb (fun e => negb (is_network e)) t.
Definition retrieval_free (t : list event) : bool := forallb (fun e => negb (is_retrieval e)) t.
Definition write_free (t : list event) : bool := forallb (fun e => negb (is_filewrite e)) t.

(** A computation: the events it caused and how it ended. *)
Definition M (A : Type) : Type := (list event * outcome A)%type.

Definition ret {A} (a : A) : M A := ([], Returned a).

Definition bind {A B} (m : M A) (k : A -> M B) : M B :=
  match m with
  | (t, Returned a) => let (t', r) := k a in (t ++ t', r)
  | (t, Exited c) => (t, Exited c)
  | (t, Raised e) => (t, Raised e)
  end.

Definition emit (e : event) : M unit := ([e], Returned tt).
Definition sys_exit {A} (code : Z) : M A := ([], Exited code).
Definition raise {A} (e : exn) : M A := ([], Raised e).
Definition lift {A} (r : exn + A) : M A :=
  match r with inl e => raise e | inr a => ret a end.
Definition fails (r : option exn) : M unit :=
  match r with Some e => raise e | None => ret tt end.
Definition print (args : list printarg) : M unit := emit (Print args).
Definition when (c : bool) (m : M unit) : M unit := if c then m else ret tt.

Declare Scope py_scope.
Delimit Scope py_scope with py.
Notation "x <- m ;; k" := (bind m (fun x => k))
  (at level 61, m at next level, right associativity) : py_scope.
Notation "m ;; k" := (bind m (fun _ => k))
  (at level 61, right associativity) : py_scope.
Local Open Scope py_scope.

(** [for x in l: body(x)] *)
Fixpoint for_each {A} (l : list A) (body : A -> M unit) : M unit :=
  match l with
  | [] => ret tt
  | x :: rest => body x ;; for_each rest body
  end.

Definition nl : string := String (ascii_of_nat 10) EmptyString.
Definition nonempty (s : string) : bool :=
  match s with EmptyString => false | _ => true end.
Definition is_some {A} (x : option A) : bool :=
  match x with Some _ => true | None => false end.
(** Truth value of an optional int: [None] and [0] are false. *)
Definition truthy (x : option Z) : bool :=
  match x with Some z => negb (z =? 0) | None => false end.
Definition str_mem (s : string) (l : list string) : bool :=
  existsb (String.eqb s) l.

(** *** The environment

    [raidpirlib], the requestor classes, the file system and the clock. *)
Record Env : Type := {
  pirversion : string;
  retrieve_rawmanifest : string -> exn + bytes;
  parse_manifest : bytes -> exn + manifest;
  get_filenames_in_release : manifest -> list string;
  get_blocklist_for_file : string -> manifest -> exn + list Z;
  retrieve_mirrorinfolist : string -> option Z -> exn + mirrorinfolist;
  (* construct the requestor, run the workers, clean up: [return_block] *)
  run_requestor : mirrorinfolist -> list Z -> manifest -> options ->
                  option Z -> bool -> bool -> exn + (Z -> bytes);
  extract_file_from_blockdict : string -> manifest -> blockdict -> exn + bytes;
  find_hash : bytes -> string -> exn + bytes;
  read_file : string -> exn + bytes;
  write_error : string -> bytes -> option exn;
  open_append_error : string -> option exn;
  strftime : string -> string }.

(** *** Chunk lengths, [request_blocks_from_mirrors] lines 238-241

    [chunklen] and [lastchunklen] are module globals that the chunk branch
    assigns. In Python 3 [/] on two ints is true division and gives a
    float, and an int met by a float in [/], [*] or [-] is converted to
    float first ([float_of_int]). *)

(** Modelled from the spec: [lib.bits_to_bytes] of [raidpirlib], the number
    of bytes that store [n] bits, [ceil(n/8)]. *)
Definition bits_to_bytes (n : Z) : Z := (n + 7) / 8.

(** [chunklen = (manifestdict['blockcount'] / 8) / numberofmirrors] *)
Definition chunklen (n k : Z) : float :=
  ((float_of_int n / float_of_int 8) / float_of_int k)%float.

(** [lastchunklen = lib.bits_to_bytes(blockcount) - (numberofmirrors-1)*chunklen] *)
Definition lastchunklen (n k : Z) : float :=
  (float_of_int (bits_to_bytes n) - float_of_int (k - 1) * chunklen n k)%float.

(** The layout in the words of the spec: [floor(n/8)/k] bytes for each of
    the first [k-1] chunks, the rest of the [ceil(n/8)] bytes for the last. *)
Definition spec_chunklen (n k : Z) : Z := (n / 8) / k.
Definition spec_lastchunklen (n k : Z) : Z := bits_to_bytes n - (k - 1) * spec_chunklen n k.

(** *** Block retrieval, [request_blocks_from_mirrors]

    The requestor object, the [k] worker threads that run
    [_request_helper] or [_request_helper_chunked] on it, their joins,
    [cleanup] and the timing lines are one event [MirrorRequests] followed
    by one call of the environment, which yields [rxgobj.return_block]. *)

(** [retdict[blocknum] = v] *)
Fixpoint dict_set (blocknum : Z) (v : bytes) (d : blockdict) : blockdict :=
  match d with
  | [] => [(blocknum, v)]
  | (b, w) :: rest =>
      if b =? blocknum then (blocknum, v) :: rest
      else (b, w) :: dict_set blocknum v rest
  end.

Definition request_blocks_from_mirrors (env : Env) (o : options)
    (requestedblocklist : list Z) (manifestdict : manifest)
    (redundancy : option Z) (rng parallel : bool) : M blockdict :=
  mirrors <-
    match vendorip o with
    | None =>
        emit (MirrorlistRequest (vendorhostname manifestdict) (Some (vendorport manifestdict))) ;;
        lift (retrieve_mirrorinfolist env (vendorhostname manifestdict)
                                      (Some (vendorport manifestdict)))
    | Some ip =>
        emit (MirrorlistRequest ip None) ;;
        lift (retrieve_mirrorinfolist env ip None)
    end ;;
  print [AStr "Mirrors: "; AMirrors mirrors] ;;
  emit (MirrorRequests requestedblocklist) ;;
  return_block <-
    lift (run_requestor env mirrors requestedblocklist manifestdict o
                        redundancy rng parallel) ;;
  ret (fold_left (fun retdict blocknum => dict_set blocknum (return_block blocknum) retdict)
                 requestedblocklist []).

(** *** File retrieval, [request_files_from_mirrors] *)

(** Lines 309-311: append the blocks not yet known to be needed. *)
Definition add_blocks (theseblocks neededblocks : list Z) : list Z :=
  fold_left (fun needed blocknum =>
               if existsb (Z.eqb blocknum) needed then needed
               else needed ++ [blocknum])
            theseblocks neededblocks.

(** Lines 302-311, from a given [neededblocks]. *)
Fixpoint needed_blocks (env : Env) (manifestdict : manifest)
    (requestedfilelist : list string) (neededblocks : list Z) : exn + list Z :=
  match requestedfilelist with
  | [] => inr neededblocks
  | filename :: rest =>
      match get_blocklist_for_file env filename manifestdict with
      | inl e => inl e
      | inr theseblocks =>
          needed_blocks env manifestdict rest (add_blocks theseblocks neededblocks)
      end
  end.

Definition corrupt_manifest : exn :=
  Exn "Exception" "Corrupt manifest has incorrect file hash despite passing block hash checks!".
Definition no_fileinfo : exn :=
  Exn "Exception" "Internal Error: Cannot locate fileinfo in manifest!".

(** Lines 323-332, the [for ... else] over [fileinfolist]. *)
Fixpoint check_file_hash (name : string) (thisfilehash : bytes)
    (infos : list fileinfo) : M unit :=
  match infos with
  | [] => raise no_fileinfo
  | info :: rest =>
      if String.eqb (filename info) name then
        if bytes_eqb thisfilehash (hash info) then ret tt
        else raise corrupt_manifest
      else check_file_hash name thisfilehash rest
  end.

(** [os.path.basename]: what follows the last slash. *)
Fixpoint basename_from (p acc : string) : string :=
  match p with
  | EmptyString => acc
  | String c rest =>
      if Ascii.eqb c "/" then basename_from rest EmptyString
      else basename_from rest (acc ++ String c EmptyString)%string
  end.
Definition basename (p : string) : string := basename_from p EmptyString.

(** Lines 318-338, the body of the loop over [requestedfilelist]. *)
Definition write_file (env : Env) (manifestdict : manifest) (blocks : blockdict)
    (name : string) : M unit :=
  filedata <- lift (extract_file_from_blockdict env name manifestdict blocks) ;;
  thisfilehash <- lift (find_hash env filedata (hashalgorithm manifestdict)) ;;
  check_file_hash name thisfilehash (fileinfolist manifestdict) ;;
  let filenamewithoutpath := basename name in
  emit (FileWrite filenamewithoutpath filedata) ;;
  fails (write_error env filenamewithoutpath filedata) ;;
  print [AStr "wrote"; AStr filenamewithoutpath].

(** Lines 317-338, [for filename in requestedfilelist:]. *)
Definition write_files (env : Env) (manifestdict : manifest) (blocks : blockdict)
    (requestedfilelist : list string) : M unit :=
  for_each requestedfilelist (write_file env manifestdict blocks).

Definition request_files_from_mirrors (env : Env) (o : options)
    (requestedfilelist : list string) (redundancy : option Z)
    (rng parallel : bool) (manifestdict : manifest) : M unit :=
  neededblocks <- lift (needed_blocks env manifestdict requestedfilelist []) ;;
  blocks <- request_blocks_from_mirrors env o neededblocks manifestdict
                                        redundancy rng parallel ;;
  write_files env manifestdict blocks requestedfilelist.

(** *** Properties in the words of the spec *)

(** A list without its repetitions: each element once, where it first
    stands. *)
Fixpoint first_occurrences (l : list Z) : list Z :=
  match l with
  | [] => []
  | x :: rest => x :: filter (fun y => negb (y =? x)) (first_occurrences rest)
  end.

(** The block lists of the requested files, in the order of the request. *)
Definition block_lists (env : Env) (manifestdict : manifest)
    (requestedfilelist : list string) (lists : list (list Z)) : Prop :=
  Forall2 (fun name blocks => get_blocklist_for_file env name manifestdict = inr blocks)
          requestedfilelist lists.

(** The hash that the manifest records for a file, in its first entry of
    that name, is [h]. *)
Definition manifest_hash_is (manifestdict : manifest) (name : string) (h : bytes) : Prop :=
  exists before info after,
    fileinfolist manifestdict = before ++ info :: after
    /\ (forall other, In other before -> filename other <> name)
    /\ filename info = name
    /\ hash info = h.

(** A file passes its check: it is extracted, hashed with the algorithm of
    the manifest, and the hash is the one that the manifest records. *)
Definition hash_check_passes (env : Env) (manifestdict : manifest) (blocks : blockdict)
    (name : string) (filedata : bytes) : Prop :=
  extract_file_from_blockdict env name manifestdict blocks = inr filedata
  /\ exists h, find_hash env filedata (hashalgorithm manifestdict) = inr h
               /\ manifest_hash_is manifestdict name h.


(** *** Option parsing, [parse_options]

    [parsed] and [remainingargs] are what [parser.parse_args()] returned. *)
Definition parse_options (parsed : options) (remainingargs : list string) : M options :=
  let o := if parallel parsed then set_rng parsed true else parsed in
  when (numberofmirrors o <? 2)
       (print [AStr "Mirrors to contact must be > 1"] ;; sys_exit 1) ;;
  when (match redundancy o with Some r => r <? 2 | None => false end)
       (print [AStr "Redundancy must be > 1"] ;; sys_exit 1) ;;
  when (match redundancy o with Some r => r >? numberofmirrors o | None => false end)
       (print [AStr "Redundancy must be less or equal to number of mirrors (";
               AInt (numberofmirrors o); AStr ")"] ;; sys_exit 1) ;;
  when ((rng o || parallel o) && negb (truthy (redundancy o)))
       (print [AStr "Chunks must be enabled and redundancy set (-r <number>) to use RNG or parallel queries!"] ;;
        sys_exit 1) ;;
  when ((List.length remainingargs =? 0)%nat && Bool.eqb (printfiles o) false)
       (print [AStr "Must specify at least one file to retrieve!"] ;; sys_exit 1) ;;
  ret (set_filestoretrieve o remainingargs).

(** *** The timing log, [start_logging] *)

Definition start_logging (env : Env) (o : options) : M unit :=
  let logfilename :=
    (strftime env "%y%m%d" ++ "_" ++ comment o
     ++ "_k" ++ str_int (numberofmirrors o)
     ++ (match redundancy o with
         | Some r => if Z.eqb r 0 then "" else "_r" ++ str_int r
         | None => ""
         end)
     ++ (if rng o then "_R" else "")
     ++ (if parallel o then "_p" else "")
     ++ (if batch o then "_b" else ""))%string in
  let name := ("timing_" ++ logfilename ++ ".log")%string in
  emit (LogOpen name) ;;
  fails (open_append_error env name) ;;
  emit (LogWrite [AStr (strftime env "%y%m%d-%H%M%S"); AStr nl]) ;;
  emit (LogWrite [AStrList (filestoretrieve o); AStr " "]) ;;
  emit (LogWrite [AInt (numberofmirrors o); AStr " "]) ;;
  emit (LogWrite [AOptInt (redundancy o); AStr " "]) ;;
  emit (LogWrite [ABool (rng o); AStr " "]) ;;
  emit (LogWrite [ABool (parallel o); AStr " "]) ;;
  emit (LogWrite [ABool (batch o); AStr nl]).

(** *** [main] *)

(** Lines 479-494: the manifest, from the vendor or from disk. *)
Definition load_manifest (env : Env) (o : options) : M manifest :=
  if nonempty (retrievemanifestfrom o) then
    emit (ManifestRequest (retrievemanifestfrom o)) ;;
    rawmanifestdata <- lift (retrieve_rawmanifest env (retrievemanifestfrom o)) ;;
    manifestdict <- lift (parse_manifest env rawmanifestdata) ;;
    emit (FileWrite (manifestfilename o) rawmanifestdata) ;;
    fails (write_error env (manifestfilename o) rawmanifestdata) ;;
    ret manifestdict
  else
    emit (FileRead (manifestfilename o)) ;;
    rawmanifestdata <- lift (read_file env (manifestfilename o)) ;;
    lift (parse_manifest env rawmanifestdata).

(** Lines 505-510: what [main] prints and logs about the manifest. *)
Definition report_manifest (o : options) (manifestdict : manifest)
    (filelist : list string) : M unit :=
  when (printfiles o)
       (print [AStr "Manifest - Blocks:"; AInt (blockcount manifestdict); AStr "x";
               AInt (blocksize manifestdict); AStr ("Byte - Files:" ++ nl)%string;
               AStrList filelist]) ;;
  when (timing o)
       (emit (LogWrite [AInt (blocksize manifestdict); AStr nl]) ;;
        emit (LogWrite [AInt (blockcount manifestdict); AStr nl])).

Definition block_count_too_low : list printarg :=
  [AStr "Block count too low to use chunks! Try reducing the block size or add more files to the database."].
Definition not_listed (name : string) : list printarg :=
  [AStr "The file"; AStr name; AStr "is not listed in the manifest."].

Definition main (env : Env) (o : options) : M unit :=
  manifestdict <- load_manifest env o ;;
  let filelist := get_filenames_in_release env manifestdict in
  when ((blockcount manifestdict <? numberofmirrors o * 8) && is_some (redundancy o))
       (print block_count_too_low ;; sys_exit 1) ;;
  report_manifest o manifestdict filelist ;;
  for_each (filestoretrieve o)
           (fun name => when (negb (str_mem name filelist))
                             (print (not_listed name) ;; sys_exit 2)) ;;
  when (0 <? List.length (filestoretrieve o))%nat
       (request_files_from_mirrors env o (filestoretrieve o) (redundancy o)
                                   (rng o) (parallel o) manifestdict).

(** The [__main__] block. *)
Definition client (env : Env) (parsed : options) (remainingargs : list string) : M unit :=
  print [AStr "RAID-PIR Client"; AStr (pirversion env)] ;;
  o <- parse_options parsed remainingargs ;;
  when (timing o) (start_logging env o) ;;
  main env o ;;
  when (timing o) (emit (LogWrite [AElapsed; AStr nl])).

(** *** The workers, [_request_helper] and [_request_helper_chunked] *)

(** What one thread meets: the requests that [get_next_xorrequest(tid)]
    hands it, in order, each with what sending it does ([None]: the call
    returns, [Some e]: it raises [e]). After the last one
    [get_next_xorrequest] returns [()]. *)
Definition script : Type := list (xorrequest * option exn).

(** The [while thisrequest != ():] loop of both helpers; [kind] tells
    which function of [raidpirlib] sends (0 [request_xorblock], 1
    [request_xorblock_chunked_rng], 2 [request_xorblock_chunked_rng_parallel],
    3 [request_xorblock_chunked]). *)
Fixpoint request_loop (kind socket : Z) (todo : script) : M unit :=
  match todo with
  | [] => ret tt
  | (thisrequest, result) :: rest =>
      emit (XorSend kind socket (payload thisrequest)) ;;
      match result with
      | None => request_loop kind socket rest
      | Some e =>
          if str_in "socked" (exc_str e) then
            emit (NotifyFailure thisrequest) ;;
            emit (StdoutWrite "F") ;;
            request_loop kind socket rest
          else raise e
      end
  end.

Definition index_error : exn := Exn "IndexError" "tuple index out of range".

Definition _request_helper (todo : script) : M unit :=
  match todo with
  | [] => raise index_error                       (* [()[0]] *)
  | (thisrequest, _) :: _ => request_loop 0 (sock thisrequest) todo
  end.

Definition _request_helper_chunked (todo : script) : M unit :=
  match todo with
  | [] => raise index_error
  | (thisrequest, _) :: _ =>
      let kind := if rqtype thisrequest =? 1 then 1
                  else if rqtype thisrequest =? 2 then 2 else 3 in
      request_loop kind (sock thisrequest) todo
  end.

(** *** Reading a trace *)

(** The payloads handed to [lib.request_xorblock*], in order. *)
Definition sent_payloads (t : list event) : list bytes :=
  flat_map (fun ev => match ev with XorSend _ _ p => [p] | _ => [] end) t.

(** The requests handed to [rxgobj.notify_failure], in order. *)
Definition notified (t : list event) : list xorrequest :=
  flat_map (fun ev => match ev with NotifyFailure q => [q] | _ => [] end) t.

(** The files written, in order: name and contents. *)
Definition written (t : list event) : list (string * bytes) :=
  flat_map (fun ev => match ev with FileWrite name data => [(name, data)] | _ => [] end) t.

(** The requests of a script whose sending raises. *)
Definition failing (todo : script) : list xorrequest :=
  flat_map (fun qr => match snd qr with Some _ => [fst qr] | None => [] end) todo.

(** The exceptions that a script raises. *)
Definition raised_in (todo : script) : list exn :=
  flat_map (fun qr => match snd qr with Some e => [e] | None => [] end) todo.

(** The characters of a [str]. *)
Definition chars (s : string) : list ascii := list_ascii_of_string s.

End Client.

(** ** The vendor, [raidpir_vendor.py] *)

Module Vendor.
Import Py.

(** *** Data *)

(** What [msgpack.unpackb] can return. *)
Inductive pyval : Type :=
| VNone
| VBool (x : bool)
| VInt (z : Z)
| VFloat (f : float)
| VStr (s : string)
| VBytes (x : bytes)
| VList (l : list pyval)
| VDict (d : list (pyval * pyval)).

(** How [msgpack.unpackb] ends, as the [except (TypeError, ValueError)]
    clause tells its exceptions apart. *)
Inductive unpacked : Type :=
| Unpacked (v : pyval)
| UnpackError (e : exn)      (* a TypeError or a ValueError, or a subclass *)
| UnpackRaises (e : exn).    (* any other exception *)

(** An entry of [_global_mirrorinfodict]. Times are [time.time()] floats. *)
Record mirrorentry : Type := MirrorEntry { mirrorinfo : pyval; advertisetime : float }.

(** [_global_mirrorinfodict]: keys ['ip:port'], in insertion order. *)
Definition mirrorinfodict : Type := list (string * mirrorentry).

(** A message handed to [session.sendmessage]. *)
Inductive message : Type :=
| MStr (s : string)
| MRaw (x : bytes)
| MPacked (l : list pyval).   (* msgpack.packb(l) *)

(** The globals that the handlers share. *)
Record state : Type := State {
  _global_mirrorinfodict : mirrorinfodict;
  _global_rawmirrorlist : message }.

(** [_commandlineoptions] *)
Record options : Type := Options {
  manifestfilename : string;
  maxmirrorinfo : Z;
  mirrorexpirytime : Z;
  checkmirrorip : bool }.

(** [msgpack], [str] on values that are neither [str] nor [int], the
    socket and the manifest file. *)
Record Env : Type := {
  unpackb : bytes -> unpacked;
  builtin_str : pyval -> string;
  send_error : message -> option exn;
  read_manifest : string -> exn + bytes }.

(** *** Effects *)

Inductive logarg : Type :=
| LStr (s : string)
| LInt (z : Z)
| LVal (v : pyval)
| LExn (e : exn).

Inductive event : Type :=
| Send (m : message)              (* session.sendmessage(self.request, m) *)
| Log (line : list logarg)        (* _log(...) *)
| Print (s : string)              (* print(...) *)
| ManifestRead (name : string)    (* open(name, 'rb').read() *)
| NotifyMirror (mirror : pyval).  (* connect to the mirror, send 'MANIFEST UPDATE' *)

(** A handler: from the globals to the globals as it leaves them, the
    events, and how it ended. What was done to the globals before an
    exception stays done. *)
Definition V (A : Type) : Type := state -> (state * list event * outcome A)%type.

Definition ret {A} (a : A) : V A := fun st => (st, [], Returned a).

Definition bind {A B} (m : V A) (k : A -> V B) : V B :=
  fun st =>
    match m st with
    | (st1, t, Returned a) =>
        match k a st1 with (st2, t', r) => (st2, t ++ t', r) end
    | (st1, t, Exited c) => (st1, t, Exited c)
    | (st1, t, Raised e) => (st1, t, Raised e)
    end.

Definition emit (e : event) : V unit := fun st => (st, [e], Returned tt).
Definition raise {A} (e : exn) : V A := fun st => (st, [], Raised e).
Definition get : V state := fun st => (st, [], Returned st).
Definition put (st : state) : V unit := fun _ => (st, [], Returned tt).
Definition log (line : list logarg) : V unit := emit (Log line).

Declare Scope vendor_scope.
Notation "x <- m ;; k" := (bind m (fun x => k))
  (at level 61, m at next level, right associativity) : vendor_scope.
Notation "m ;; k" := (bind m (fun _ => k))
  (at level 61, right associativity) : vendor_scope.
Local Open Scope vendor_scope.

(** [session.sendmessage(self.request, m)] *)
Definition sendmessage (env : Env) (m : message) : V unit :=
  emit (Send m) ;;
  match send_error env m with Some e => raise e | None => ret tt end.

(** *** The mirror map *)

Fixpoint dict_get (index : string) (d : mirrorinfodict) : option mirrorentry :=
  match d with
  | [] => None
  | (i, e) :: rest => if String.eqb i index then Some e else dict_get index rest
  end.

(** [del d[index]] *)
Fixpoint dict_del (index : string) (d : mirrorinfodict) : mirrorinfodict :=
  match d with
  | [] => []
  | (i, e) :: rest => if String.eqb i index then rest else (i, e) :: dict_del index rest
  end.

(** [d[index] = e]: in place when the key is there, at the end otherwise. *)
Fixpoint dict_set (index : string) (e : mirrorentry) (d : mirrorinfodict) : mirrorinfodict :=
  match d with
  | [] => [(index, e)]
  | (i, e') :: rest =>
      if String.eqb i index then (index, e) :: rest
      else (i, e') :: dict_set index e rest
  end.

Definition keys (d : mirrorinfodict) : list string := map fst d.

Definition runtime_error : exn :=
  Exn "RuntimeError" "dictionary changed size during iteration".
Definition key_error (index : string) : exn := Exn "KeyError" index.

(** [now > mirrorexpirytime + advertisetime], line 107. The int
    [mirrorexpirytime] becomes a float by [float_of_int]: this is the test of
    the code when [float_exact (mirrorexpirytime opts)]. *)
Definition expired (opts : options) (now : float) (e : mirrorentry) : bool :=
  PrimFloat.ltb (float_of_int (mirrorexpirytime opts) + advertisetime e)%float now.

(** Lines 104-109, [for index in _global_mirrorinfodict:] with a [del]
    in its body. A dict iterator remembers the size of the dict when it was
    made ([used]); each time the loop asks it for the next key, also when
    no key is left, it first compares that size with the present one and
    raises RuntimeError when they differ. While the sizes agree the dict
    is as it was, so the keys still to come are [todo]. *)
Fixpoint expiry_loop (opts : options) (now : float) (used : nat)
    (todo : list string) : V unit :=
  st <- get ;;
  if negb (List.length (_global_mirrorinfodict st) =? used)%nat then raise runtime_error
  else
    match todo with
    | [] => ret tt
    | index :: rest =>
        match dict_get index (_global_mirrorinfodict st) with
        | None => raise (key_error index)
        | Some entry =>
            if expired opts now entry then
              put (State (dict_del index (_global_mirrorinfodict st))
                         (_global_rawmirrorlist st)) ;;
              log [LStr "RAID-PIR Vendor Removing Mirror due to timeout: "; LStr index] ;;
              expiry_loop opts now used rest
            else expiry_loop opts now used rest
        end
    end.

(** [_check_for_expired_mirrorinfo]. [lock_free] is what
    [_global_mirrorinfolock.acquire(False)] returns. *)
Definition _check_for_expired_mirrorinfo (opts : options) (now : float)
    (lock_free : bool) : V unit :=
  if lock_free then
    st <- get ;;
    expiry_loop opts now (List.length (_global_mirrorinfodict st))
                (keys (_global_mirrorinfodict st)) ;;
    st' <- get ;;
    let mirrorlist := map (fun kv => mirrorinfo (snd kv)) (_global_mirrorinfodict st') in
    put (State (_global_mirrorinfodict st') (MPacked mirrorlist))
  else ret tt.

Definition type_error (msg : string) : exn := Exn "TypeError" msg.

(** [thismirrorinfo[key]] of a dict read off the wire. *)
Fixpoint item (key : string) (d : list (pyval * pyval)) : option pyval :=
  match d with
  | [] => None
  | (VStr k, v) :: rest => if String.eqb k key then Some v else item key rest
  | _ :: rest => item key rest
  end.

(** [str(v)] *)
Definition str (env : Env) (v : pyval) : string :=
  match v with
  | VStr s => s
  | VInt z => str_int z
  | _ => builtin_str env v
  end.

(** [_add_mirrorinfo_to_list(thismirrorinfo)]; the caller has checked that
    [thismirrorinfo] is a dict [d] with the keys ['ip'] and ['port']. *)
Definition _add_mirrorinfo_to_list (env : Env) (now : float)
    (d : list (pyval * pyval)) : V unit :=
  log [LStr "RAID-PIR Vendor _add_mirrorinfo_to_list "; LVal (VDict d)] ;;
  match item "ip" d, item "port" d with
  | Some (VStr ip), Some port =>
      let index := (ip ++ ":" ++ str env port)%string in
      st <- get ;;
      put (State (dict_set index (MirrorEntry (VDict d) now) (_global_mirrorinfodict st))
                 (_global_rawmirrorlist st))
  | Some _, Some _ =>
      (* [thismirrorinfo['ip'] + ":"] with an 'ip' that is not a str *)
      raise (type_error "unsupported operand type(s) for +")
  | None, _ => raise (key_error "ip")
  | _, None => raise (key_error "port")
  end.

(** *** The request handler, [ThreadedVendorRequestHandler.handle]

    [requeststring] is what [session.recvmessage] returned, [remoteip] and
    [remoteport] what [getpeername()] returned, [now] the reading of
    [time.time()] under the lock. *)

Fixpoint startswith (x prefix : bytes) : bool :=
  match prefix, x with
  | [], _ => true
  | p :: prefix', c :: x' => Byte.eqb c p && startswith x' prefix'
  | _ :: _, [] => false
  end.

Definition has_key (key : string) (d : list (pyval * pyval)) : bool :=
  match item key d with Some _ => true | None => false end.

(** [v != s] for a str [s] *)
Definition differs (v : option pyval) (s : string) : bool :=
  match v with
  | Some (VStr x) => negb (String.eqb x s)
  | _ => true
  end.

Definition who (remoteip : string) (remoteport : Z) : list logarg :=
  [LStr "RAID-PIR Vendor "; LStr remoteip; LStr " "; LInt remoteport].

(** Lines 160-170. The assignment to [_global_rawmanifestdata] binds a
    local of [handle]. *)
Definition handle_get_manifest (env : Env) (opts : options)
    (remoteip : string) (remoteport : Z) : V unit :=
  emit (Print "GET MANIFEST") ;;
  emit (ManifestRead (manifestfilename opts)) ;;
  match read_manifest env (manifestfilename opts) with
  | inl e => raise e
  | inr rawmanifestdata =>
      sendmessage env (MRaw rawmanifestdata) ;;
      log (who remoteip remoteport ++ [LStr " manifest request"])
  end.

(** Lines 172-199. Every error of the connection to a mirror is swallowed
    by the bare [except]; no reply is sent. *)
Fixpoint notify_mirrors (mirrorlist : list pyval) : V unit :=
  match mirrorlist with
  | [] => ret tt
  | mirror :: rest => emit (NotifyMirror mirror) ;; notify_mirrors rest
  end.

Definition handle_manifest_update (env : Env) (opts : options) : V unit :=
  emit (Print "MANIFEST UPDATE") ;;
  emit (ManifestRead (manifestfilename opts)) ;;
  match read_manifest env (manifestfilename opts) with
  | inl e => raise e
  | inr _ =>
      st <- get ;;
      notify_mirrors (map (fun kv => mirrorinfo (snd kv)) (_global_mirrorinfodict st))
  end.

(** Lines 201-211. *)
Definition handle_get_mirrorlist (env : Env) (opts : options) (now : float)
    (lock_free : bool) (remoteip : string) (remoteport : Z) : V unit :=
  _check_for_expired_mirrorinfo opts now lock_free ;;
  st <- get ;;
  sendmessage env (_global_rawmirrorlist st) ;;
  log (who remoteip remoteport ++ [LStr " mirrorlist request"]).

Definition invalid_format (env : Env) (remoteip : string) (remoteport : Z) : V unit :=
  sendmessage env (MStr "Error, mirrorinfo has an invalid format.") ;;
  log (who remoteip remoteport ++ [LStr " mirrorinfo has an invalid format"]).

(** Lines 213-258. *)
Definition handle_mirroradvertise (env : Env) (opts : options) (now : float)
    (remoteip : string) (remoteport : Z) (requeststring : bytes) : V unit :=
  log (who remoteip remoteport ++ [LStr " mirror advertise"]) ;;
  let mirrorrawdata := skipn (List.length (b "MIRRORADVERTISE")) requeststring in
  if Z.of_nat (List.length mirrorrawdata) >? maxmirrorinfo opts then
    sendmessage env (MStr "Error, mirrorinfo too large!") ;;
    log (who remoteip remoteport
         ++ [LStr " mirrorinfo too large: "; LInt (Z.of_nat (List.length mirrorrawdata))])
  else
    match unpackb env mirrorrawdata with
    | UnpackError e =>
        sendmessage env (MStr "Error cannot unpack mirrorinfo!") ;;
        log (who remoteip remoteport ++ [LStr " cannot unpack mirrorinfo!"; LExn e])
    | UnpackRaises e => raise e
    | Unpacked (VDict d) =>
        if negb (has_key "ip" d) || negb (has_key "port" d) then
          invalid_format env remoteip remoteport
        else if checkmirrorip opts && differs (item "ip" d) remoteip then
          sendmessage env (MStr "Error, must provide mirrorinfo from the mirror's IP") ;;
          log (who remoteip remoteport ++ [LStr " mirrorinfo provided from the wrong IP"])
        else
          _add_mirrorinfo_to_list env now d ;;
          sendmessage env (MStr "OK") ;;
          log (who remoteip remoteport
               ++ [LStr " mirrorinfo update "; LInt (Z.of_nat (List.length mirrorrawdata))])
    | Unpacked _ => invalid_format env remoteip remoteport
    end.

(** Lines 261-267. *)
Definition handle_hello (env : Env) (remoteip : string) (remoteport : Z) : V unit :=
  sendmessage env (MStr "VENDORHI!") ;;
  log (who remoteip remoteport ++ [LStr " VENDORHI!"]).

(** Lines 269-274: the argument of [_log] adds a [bytes] to a [str], which
    raises before anything is logged or sent. *)
Definition handle_invalid : V unit :=
  raise (type_error "can only concatenate str (not bytes) to str").

Definition handle (env : Env) (opts : options) (now : float) (lock_free : bool)
    (remoteip : string) (remoteport : Z) (requeststring : bytes) : V unit :=
  if bytes_eqb requeststring (b "GET MANIFEST") then
    handle_get_manifest env opts remoteip remoteport
  else if bytes_eqb requeststring (b "MANIFEST UPDATE") then
    handle_manifest_update env opts
  else if bytes_eqb requeststring (b "GET MIRRORLIST") then
    handle_get_mirrorlist env opts now lock_free remoteip remoteport
  else if startswith requeststring (b "MIRRORADVERTISE") then
    handle_mirroradvertise env opts now remoteip remoteport requeststring
  else if bytes_eqb requeststring (b "HELLO") then
    handle_hello env remoteip remoteport
  else handle_invalid.

(** *** Start-up, [parse_options]

    [parsed] and [remainingargs] are what [parser.parse_args()] returned;
    [open_error] tells whether [open(logfilename, 'a')] raises. *)

(** [_commandlineoptions] in full: the options that the handlers read and
    those that only start-up reads. *)
Record startup : Type := Startup {
  handler_options : options;
  daemonize : bool;
  logfilename : string;
  ip : option string;
  port : option Z }.

Inductive startup_event : Type :=
| Printed (text : string) (args : list string)   (* print(text, args) *)
| LogOpened (name : string).                     (* _logfo = open(name, 'a') *)

Definition parse_options (open_error : string -> option exn) (parsed : startup)
    (remainingargs : list string) : list startup_event * outcome startup :=
  if maxmirrorinfo (handler_options parsed) <=? 0 then
    ([Printed "Max mirror info size must be positive" []], Exited 1)
  else
    match remainingargs with
    | _ :: _ => ([Printed "Unknown options" remainingargs], Exited 1)
    | [] =>
        match open_error (logfilename parsed) with
        | Some e => ([LogOpened (logfilename parsed)], Raised e)
        | None => ([LogOpened (logfilename parsed)], Returned parsed)
        end
    end.

End Vendor.

(** ** The manifest creator, [raidpir_create_manifest.py] *)

Module CreateManifest.
Import Py.

(** What optparse returns. *)
Record parsed_options : Type := Parsed {
  manifestfile : string;
  vendorport : Z;
  hashalgorithm : string;
  offsetalgorithm : string;
  database : option string }.

(** What [parse_options] returns: the same object with the three
    positional arguments added. *)
Record options : Type := Options {
  parsed : parsed_options;
  rootdir : string;
  blocksize : Z;
  vendorhostname : string }.

Inductive printarg : Type :=
| AStr (s : string)
| AInt (z : Z).

Inductive event : Type :=
| Print (args : list printarg)                   (* print(...) *)
| ManifestOpen (name : string)                   (* open(name, 'wb'): the file is now empty *)
| ManifestWrite (name : string) (raw : bytes)    (* manifestfo.write(raw); close() *)
| DatabaseWrite (root name : string).            (* lib._write_db(root, name) *)

(** [int], [raidpirlib], [msgpack] and the file system. *)
Record Env : Type := {
  pirversion : string;
  int : string -> exn + Z;
  create_manifest : options -> exn + Client.manifest;
  packb : Client.manifest -> exn + bytes;
  open_error : string -> option exn;
  write_error : string -> bytes -> option exn;
  write_db_error : string -> string -> option exn }.

Definition M (A : Type) : Type := (list event * outcome A)%type.

Definition ret {A} (a : A) : M A := ([], Returned a).

Definition bind {A B} (m : M A) (k : A -> M B) : M B :=
  match m with
  | (t, Returned a) => let (t', r) := k a in (t ++ t', r)
  | (t, Exited c) => (t, Exited c)
  | (t, Raised e) => (t, Raised e)
  end.

Definition emit (e : event) : M unit := ([e], Returned tt).
Definition lift {A} (r : exn + A) : M A :=
  match r with inl e => ([], Raised e) | inr a => ret a end.
Definition fails (r : option exn) : M unit :=
  match r with Some e => ([], Raised e) | None => ret tt end.
Definition refuse {A} (text : string) : M A := ([Print [AStr text]], Exited 1).

Declare Scope manifest_scope.
Notation "x <- m ;; k" := (bind m (fun x => k))
  (at level 61, m at next level, right associativity) : manifest_scope.
Notation "m ;; k" := (bind m (fun _ => k))
  (at level 61, right associativity) : manifest_scope.
Local Open Scope manifest_scope.

(** [parse_options]; [given] and [remainingargs] are what
    [parser.parse_args()] returned. *)
Definition parse_options (env : Env) (given : parsed_options)
    (remainingargs : list string) : M options :=
  match remainingargs with
  | [arg0; arg1; arg2] =>
      size <- lift (int env arg1) ;;
      if size <=? 0 then refuse "Specified blocksize number is not positive"
      else if negb (size mod 64 =? 0) then refuse "Blocksize must be divisible by 64"
      else if (vendorport given <=? 0) || (vendorport given >? 65535)
      then refuse "Invalid vendorport"
      else ret (Options given arg0 size arg2)
  | _ => refuse "Requires exactly three additional arguments: rootdir blocksize vendorhostname"
  end.

(** The [__main__] block. *)
Definition run (env : Env) (given : parsed_options) (remainingargs : list string) : M unit :=
  emit (Print [AStr "RAID-PIR create manifest"; AStr (pirversion env)]) ;;
  commandlineoptions <- parse_options env given remainingargs ;;
  manifestdict <- lift (create_manifest env commandlineoptions) ;;
  let name := manifestfile (parsed commandlineoptions) in
  emit (ManifestOpen name) ;;
  fails (open_error env name) ;;
  rawmanifest <- lift (packb env manifestdict) ;;
  emit (ManifestWrite name rawmanifest) ;;
  fails (write_error env name rawmanifest) ;;
  match database (parsed commandlineoptions) with
  | Some db =>
      emit (DatabaseWrite (rootdir commandlineoptions) db) ;;
      fails (write_db_error env (rootdir commandlineoptions) db)
  | None => ret tt
  end ;;
  emit (Print [AStr "Generated manifest"; AStr name; AStr "with";
               AInt (Client.blockcount manifestdict); AInt (Client.blocksize manifestdict);
               AStr "Byte blocks."]).

End CreateManifest.

(** ** Concrete inputs *)

Module Samples.
Import Py.

(** A release of two files, [a] in blocks 0 and 1 and [b] in blocks 2 and 3,
    whose stored hash is the file itself. *)
Definition data_a : bytes := b "aaaa".
Definition data_b : bytes := b "bbbb".

Definition small_manifest : Client.manifest :=
  Client.Manifest 8 64 "sha256-raw" "vendor.example.org" 62293
                  [Client.FileInfo "a" data_a; Client.FileInfo "b" data_b].


Definition not_in_manifest : exn := Exn "TypeError" "File is not in manifest".

Definition honest_env : Client.Env :=
  {| Client.pirversion := "v0.9.5";
     Client.retrieve_rawmanifest := fun _ => inr (b "manifest");
     Client.parse_manifest := fun _ => inr small_manifest;
     Client.get_filenames_in_release := fun m => map Client.filename (Client.fileinfolist m);
     Client.get_blocklist_for_file := fun name _ =>
       if String.eqb name "a" then inr [0; 1]
       else if String.eqb name "b" then inr [2; 3]
       else inl not_in_manifest;
     Client.retrieve_mirrorinfolist := fun _ _ => inr [("10.0.0.1", 62294); ("10.0.0.2", 62294)];
     Client.run_requestor := fun _ _ _ _ _ _ _ => inr (fun _ => b "xx");
     Client.extract_file_from_blockdict := fun name _ _ =>
       if String.eqb name "a" then inr data_a else inr data_b;
     Client.find_hash := fun data _ => inr data;
     Client.read_file := fun _ => inr (b "manifest");
     Client.write_error := fun _ _ => None;
     Client.open_append_error := fun _ => None;
     Client.strftime := fun _ => "260101" |}.

(** An environment whose manifest does not parse. *)
Definition bad_manifest : exn := Exn "TypeError" "Manifest has an invalid format".

Definition broken_env : Client.Env :=
  {| Client.pirversion := "v0.9.5";
     Client.retrieve_rawmanifest := fun _ => inr (b "garbage");
     Client.parse_manifest := fun _ => inl bad_manifest;
     Client.get_filenames_in_release := fun m => map Client.filename (Client.fileinfolist m);
     Client.get_blocklist_for_file := fun _ _ => inl not_in_manifest;
     Client.retrieve_mirrorinfolist := fun _ _ => inr [];
     Client.run_requestor := fun _ _ _ _ _ _ _ => inr (fun _ => []);
     Client.extract_file_from_blockdict := fun _ _ _ => inr [];
     Client.find_hash := fun data _ => inr data;
     Client.read_file := fun _ => inr (b "garbage");
     Client.write_error := fun _ _ => None;
     Client.open_append_error := fun _ => None;
     Client.strftime := fun _ => "260101" |}.

(** What optparse returns for [-k K], [-r R] and the given flags. *)
Definition opts (from : string) (k : Z) (r : option Z) (rng parallel : bool) : Client.options :=
  Client.Options from false None "manifest.dat" k r rng parallel false false "" [].

(** A socket error as the operating system reports it. *)
Definition reset_by_peer : exn :=
  Exn "ConnectionResetError" "[Errno 104] Connection reset by peer".

Definition request_1 : Client.xorrequest := Client.XorRequest 7 (b "q1") 3.
Definition request_2 : Client.xorrequest := Client.XorRequest 7 (b "q2") 3.

(** The vendor with its default options ([--maxmirrorinfo 10240],
    [--mirrorexpirytime 300], no [--checkmirrorip]). *)
Definition vendor_options : Vendor.options := Vendor.Options "manifest.dat" 10240 300 false.

(** [{'ip': '10.0.0.1', 'port': 62294}] *)
Definition mirror_1 : Vendor.pyval :=
  Vendor.VDict [(Vendor.VStr "ip", Vendor.VStr "10.0.0.1");
                (Vendor.VStr "port", Vendor.VInt 62294)].

(** [{'ip': 5, 'port': 62294}] and its msgpack encoding: a map of two
    entries, the str [ip], the int 5, the str [port], the uint16 62294. *)
Definition mirror_int_ip : Vendor.pyval :=
  Vendor.VDict [(Vendor.VStr "ip", Vendor.VInt 5);
                (Vendor.VStr "port", Vendor.VInt 62294)].

Definition packed_int_ip : bytes :=
  [Byte.x82; Byte.xa2; Byte.x69; Byte.x70; Byte.x05;
   Byte.xa4; Byte.x70; Byte.x6f; Byte.x72; Byte.x74; Byte.xcd; Byte.xf3; Byte.x56].

(** A msgpack that knows these two payloads. *)
Definition vendor_env : Vendor.Env :=
  {| Vendor.unpackb := fun raw =>
       if bytes_eqb raw packed_int_ip then Vendor.Unpacked mirror_int_ip
       else if bytes_eqb raw (b "mirror_1") then Vendor.Unpacked mirror_1
       else Vendor.UnpackError (Exn "ValueError" "Unpack failed: incomplete input");
     Vendor.builtin_str := fun _ => "";
     Vendor.send_error := fun _ => None;
     Vendor.read_manifest := fun _ => inr (b "manifest") |}.

(** The vendor after [mirror_1] advertised itself at time 0. *)
Definition one_mirror : Vendor.state :=
  Vendor.State [("10.0.0.1:62294", Vendor.MirrorEntry mirror_1 0%float)]
               (Vendor.MPacked [mirror_1]).

End Samples.

(** ** Facts about the shared values *)

Module PyFacts.
Import Py.

(** The rounding of the floats does not look at the sign. *)
Lemma binary_round_opp p e :
  SFopp (SpecFloat.binary_round prec emax false p e) = SpecFloat.binary_round prec emax true p e.
Proof.
  unfold SpecFloat.binary_round, SpecFloat.binary_round_aux.
  destruct (SpecFloat.shl_align p e _) as [mz ez].
  destruct (SpecFloat.shr_fexp prec emax (Z.pos mz) ez SpecFloat.loc_Exact) as [m1 e1].
  destruct (SpecFloat.shr_fexp prec emax _ e1 SpecFloat.loc_Exact) as [m2 e2].
  destruct (SpecFloat.shr_m m2); try reflexivity.
  destruct (e2 <=? emax - prec); reflexivity.
Qed.

(** On the ints of the float range, [float_of_int] is the IEEE 754
    conversion of the int itself, with its sign: nothing is reduced modulo
    [2^63]. *)
Lemma float_of_int_rounds z :
  float_exact z ->
  Prim2SF (float_of_int z) = SpecFloat.binary_normalize prec emax z 0 false.
Proof.
  intros Hz.
  assert (H : forall p, Z.pos p <= 2 ^ 53 -> Uint63.to_Z (Uint63.of_Z (Zpos p)) = Zpos p).
  { intros p Hp; rewrite Uint63.of_Z_spec; apply Z.mod_small; unfold wB; simpl; lia. }
  unfold float_exact in Hz.
  destruct z as [|p|p]; unfold float_of_int.
  - reflexivity.
  - rewrite of_uint63_spec, H by lia; reflexivity.
  - rewrite opp_spec, of_uint63_spec, H by lia; apply binary_round_opp.
Qed.

End PyFacts.

(** ** Facts about the client *)

Module ClientFacts.
Import Py Client.
Local Open Scope py_scope.

Lemma bytes_eqb_eq (x y : bytes) : bytes_eqb x y = true <-> x = y.
Proof.
  revert y; induction x as [|c x IH]; intros [|d y]; simpl;
    try (split; congruence).
  rewrite andb_true_iff, IH; split.
  - intros [Hc ->]; apply Byte.byte_dec_bl in Hc; now subst.
  - intros H; injection H as -> ->; split; [now apply Byte.byte_dec_lb | reflexivity].
Qed.

(** *** The Python helpers on small inputs *)

Example basename_of_path : basename "files/docs/readme.txt" = "readme.txt".
Proof. reflexivity. Qed.

Example basename_of_name : basename "readme.txt" = "readme.txt".
Proof. reflexivity. Qed.

Example socked_not_in_socket_error :
  str_in "socked" "[Errno 104] Connection reset by peer" = false
  /\ str_in "socked" "socket closed" = false
  /\ str_in "socked" "peer socked out" = true.
Proof. repeat split. Qed.

Example add_blocks_skips_known : add_blocks [1; 2; 1; 3] [2] = [2; 1; 3].
Proof. reflexivity. Qed.

Example chunk_lengths_64_blocks_4_mirrors :
  chunklen 64 4 = 2%float /\ lastchunklen 64 4 = 2%float.
Proof. split; reflexivity. Qed.

(** *** The monad *)

Lemma bind_returned {A B} (m : M A) (k : A -> M B) t (y : B) :
  bind m k = (t, Returned y) ->
  exists t1 a t2, m = (t1, Returned a) /\ k a = (t2, Returned y) /\ t = t1 ++ t2.
Proof.
  unfold bind; destruct m as [t1 [a|c|e]]; try discriminate.
  destruct (k a) as [t2 r] eqn:Hk; intros H; injection H as <- ->.
  now exists t1, a, t2.
Qed.

(** A guard that prints and exits lets the program go on only when its
    condition is false, and then leaves no trace. *)
Lemma guard_passed {B} (c : bool) (msg : list printarg) (code : Z) (k : unit -> M B) t (y : B) :
  bind (when c (print msg ;; sys_exit code)) k = (t, Returned y) ->
  c = false /\ k tt = (t, Returned y).
Proof.
  destruct c; simpl; [discriminate|].
  destruct (k tt) as [t' r]; simpl; intros H; injection H as <- ->; auto.
Qed.

Lemma guard_fired {B} (msg : list printarg) (code : Z) (k : unit -> M B) :
  bind (when true (print msg ;; sys_exit code)) k = ([Print msg], Exited code).
Proof. reflexivity. Qed.

Lemma guard_skipped {B} (m : M unit) (k : unit -> M B) :
  bind (when false m) k = k tt.
Proof. simpl; destruct (k tt); reflexivity. Qed.

(** *** Chunk lengths *)

(** The layout that the spec words describe is a partition of the
    [ceil(n/8)] bytes: [k-1] chunks of [floor(n/8)/k] bytes, each at least
    one byte long, and a last chunk that is at least as long. *)
Lemma spec_layout_partition (n k : Z) :
  2 <= k -> 8 * k <= n ->
  1 <= spec_chunklen n k
  /\ spec_chunklen n k <= spec_lastchunklen n k
  /\ (k - 1) * spec_chunklen n k + spec_lastchunklen n k = bits_to_bytes n.
Proof.
  intros Hk Hn; unfold spec_lastchunklen, spec_chunklen, bits_to_bytes.
  assert (H8 : k <= n / 8) by (apply Z.div_le_lower_bound; lia).
  assert (Hc : 1 <= n / 8 / k) by (apply Z.div_le_lower_bound; lia).
  assert (Hm : k * (n / 8 / k) <= n / 8) by (apply Z.mul_div_le; lia).
  assert (Hu : n / 8 <= (n + 7) / 8) by (apply Z.div_le_mono; lia).
  set (u := (n + 7) / 8) in *; set (q := n / 8) in *; set (c := q / k) in *.
  clearbody c; clearbody q; clearbody u.
  split; [lia|]; split; [nia | lia].
Qed.

(** C1. With 65 blocks and 4 mirrors the client computes a chunk length of
    2.03125 bytes and a last chunk length of 2.90625 bytes, where the layout
    of the spec has 2 and 3 bytes. *)
Theorem chunk_lengths_65_blocks_4_mirrors :
  chunklen 65 4 = 2.03125%float
  /\ lastchunklen 65 4 = 2.90625%float
  /\ spec_chunklen 65 4 = 2
  /\ spec_lastchunklen 65 4 = 3.
Proof. repeat split; reflexivity. Qed.

(** *** Option parsing *)

(** What [parse_options] stores when it returns: the parsed options, with
    [rng] forced by [parallel], and the remaining arguments as the files. *)
Lemma parse_options_returns parsed args t o :
  parse_options parsed args = (t, Returned o) ->
  o = set_filestoretrieve (if parallel parsed then set_rng parsed true else parsed) args.
Proof.
  unfold parse_options; intros H.
  repeat (apply guard_passed in H; destruct H as [_ H]).
  unfold ret in H; congruence.
Qed.

(** C7. Whenever [parse_options] returns, the options it leaves have [rng]
    set if they have [parallel] set. *)
Theorem parse_options_parallel_implies_rng parsed args t o :
  parse_options parsed args = (t, Returned o) ->
  parallel o = true -> rng o = true.
Proof.
  intros H Hp; apply parse_options_returns in H; subst o.
  destruct (parallel parsed) eqn:E; simpl in *; [reflexivity | congruence].
Qed.

Lemma parse_options_parallel_implies_rng_witness :
  parse_options (Samples.opts "" 2 (Some 2) false true) ["a"]
  = ([], Returned (set_filestoretrieve (Samples.opts "" 2 (Some 2) true true) ["a"]))
  /\ rng (set_filestoretrieve (Samples.opts "" 2 (Some 2) true true) ["a"]) = true.
Proof.
  split; [reflexivity|].
  apply (parse_options_parallel_implies_rng (Samples.opts "" 2 (Some 2) false true) ["a"] []);
    reflexivity.
Defined.

(** A parameter that [parse_options] refuses makes it print one line and
    exit with code 1. *)
Lemma parse_options_refuses parsed args :
  numberofmirrors parsed < 2
  \/ (exists r, redundancy parsed = Some r /\ (r < 2 \/ r > numberofmirrors parsed))
  \/ (redundancy parsed = None /\ (rng parsed = true \/ parallel parsed = true)) ->
  exists msg, parse_options parsed args = ([Print msg], Exited 1).
Proof.
  intros H; unfold parse_options.
  set (o := if parallel parsed then set_rng parsed true else parsed).
  assert (Hk : numberofmirrors o = numberofmirrors parsed) by (subst o; destruct (parallel parsed); reflexivity).
  assert (Hr : redundancy o = redundancy parsed) by (subst o; destruct (parallel parsed); reflexivity).
  assert (Hg : rng o || parallel o = rng parsed || parallel parsed).
  { subst o; destruct (parallel parsed) eqn:E; simpl; rewrite ?E; [now rewrite orb_true_r | reflexivity]. }
  rewrite Hg, Hr, Hk; clear Hg Hk Hr; clearbody o.
  destruct (numberofmirrors parsed <? 2) eqn:E1; [eexists; reflexivity|].
  rewrite guard_skipped.
  destruct (redundancy parsed) as [r|] eqn:Er.
  - destruct (r <? 2) eqn:E2; [eexists; reflexivity|]; rewrite guard_skipped.
    destruct (r >? numberofmirrors parsed) eqn:E3; [eexists; reflexivity|].
    exfalso; destruct H as [H|[[r' [Hr' H]]|[Hn _]]]; try discriminate; [lia|].
    injection Hr' as <-; lia.
  - rewrite !guard_skipped.
    destruct (rng parsed || parallel parsed) eqn:E4; [eexists; reflexivity|].
    exfalso; destruct H as [H|[[r' [Hr' _]]|[_ H]]]; try discriminate; [lia|].
    apply orb_false_elim in E4; destruct E4, H; congruence.
Qed.

(** *** [main] *)

Lemma str_mem_In (name : string) (l : list string) : str_mem name l = true <-> In name l.
Proof.
  unfold str_mem; rewrite existsb_exists; split.
  - intros [x [Hin Heq]]; apply String.eqb_eq in Heq; now subst.
  - intros Hin; exists name; split; [assumption | apply String.eqb_refl].
Qed.

Lemma nonempty_true (s : string) : nonempty s = true <-> s <> EmptyString.
Proof. destruct s; simpl; split; congruence. Qed.

(** The manifest is obtained without asking for the mirror list or
    contacting a mirror, and from disk without any network traffic. *)
Lemma load_manifest_trace env o t r :
  load_manifest env o = (t, r) ->
  retrieval_free t = true
  /\ (retrievemanifestfrom o = EmptyString -> network_free t = true).
Proof.
  unfold load_manifest; destruct (nonempty (retrievemanifestfrom o)) eqn:Hn.
  - assert (Hne : retrievemanifestfrom o <> EmptyString) by now apply nonempty_true.
    destruct (retrieve_rawmanifest env (retrievemanifestfrom o)) as [e|raw]; simpl.
    + intros H; injection H as <- _; split; [reflexivity | contradiction].
    + destruct (parse_manifest env raw) as [e|m]; simpl.
      * intros H; injection H as <- _; split; [reflexivity | contradiction].
      * destruct (write_error env (manifestfilename o) raw); simpl;
          intros H; injection H as <- _; (split; [reflexivity | contradiction]).
  - destruct (read_file env (manifestfilename o)) as [e|raw]; simpl.
    + intros H; injection H as <- _; split; reflexivity.
    + destruct (parse_manifest env raw) as [e|m]; simpl;
        intros H; injection H as <- _; split; reflexivity.
Qed.

(** The local manifest file is written only with bytes that came from the
    vendor and that [parse_manifest] accepted. *)
Lemma load_manifest_writes env o t r name data :
  load_manifest env o = (t, r) ->
  In (FileWrite name data) t ->
  name = manifestfilename o
  /\ retrieve_rawmanifest env (retrievemanifestfrom o) = inr data
  /\ exists m, parse_manifest env data = inr m.
Proof.
  unfold load_manifest; destruct (nonempty (retrievemanifestfrom o)).
  - destruct (retrieve_rawmanifest env (retrievemanifestfrom o)) as [e|raw]; simpl.
    + intros H; injection H as <- _; intros [Hin|[]]; discriminate.
    + destruct (parse_manifest env raw) as [e|m] eqn:Hp; simpl.
      * intros H; injection H as <- _; intros [Hin|[]]; discriminate.
      * destruct (write_error env (manifestfilename o) raw); simpl;
          intros H; injection H as <- _; intros [Hin|[Hin|[]]]; try discriminate;
          injection Hin as <- <-; eauto.
  - destruct (read_file env (manifestfilename o)) as [e|raw]; simpl.
    + intros H; injection H as <- _; intros [Hin|[]]; discriminate.
    + destruct (parse_manifest env raw) as [e|m]; simpl;
        intros H; injection H as <- _; intros [Hin|[]]; discriminate.
Qed.

(** [main] once the manifest is there. *)
Lemma main_after_load env o t0 m :
  load_manifest env o = (t0, Returned m) ->
  main env o =
  let (t, r) :=
    (when ((blockcount m <? numberofmirrors o * 8) && is_some (redundancy o))
          (print block_count_too_low ;; sys_exit 1) ;;
     report_manifest o m (get_filenames_in_release env m) ;;
     for_each (filestoretrieve o)
              (fun name => when (negb (str_mem name (get_filenames_in_release env m)))
                                (print (not_listed name) ;; sys_exit 2)) ;;
     when (0 <? List.length (filestoretrieve o))%nat
          (request_files_from_mirrors env o (filestoretrieve o) (redundancy o)
                                      (rng o) (parallel o) m)) in
  (t0 ++ t, r).
Proof. intros H; unfold main; rewrite H; reflexivity. Qed.

Lemma report_manifest_returns o m filelist :
  exists t, report_manifest o m filelist = (t, Returned tt)
            /\ retrieval_free t = true /\ network_free t = true.
Proof.
  unfold report_manifest; destruct (printfiles o), (timing o);
    eexists; (split; [reflexivity | split; reflexivity]).
Qed.

(** The loop of lines 513-517 stops at the first requested file that the
    manifest does not list. *)
Lemma listing_check_exits (filelist files : list string) :
  (exists name, In name files /\ ~ In name filelist) ->
  exists missing,
    In missing files /\ ~ In missing filelist
    /\ for_each files (fun name => when (negb (str_mem name filelist))
                                        (print (not_listed name) ;; sys_exit 2))
       = ([Print (not_listed missing)], Exited 2).
Proof.
  induction files as [|f files IH]; intros [name [Hin Hnot]]; [destruct Hin|].
  cbn [for_each]; destruct (str_mem f filelist) eqn:Hf; cbn [negb].
  - assert (Hf' : In f filelist) by now apply str_mem_In.
    destruct Hin as [->|Hin]; [contradiction|].
    destruct IH as [missing [H1 [H2 H3]]]; [now exists name|].
    exists missing; split; [now right | split; [assumption|]].
    rewrite guard_skipped; exact H3.
  - exists f; split; [now left | split; [| apply guard_fired]].
    intros Hf'; apply str_mem_In in Hf'; congruence.
Qed.

(** C3, amended. A mirror count below 2, a redundancy below 2 or above the
    mirror count, or rng or parallel without a redundancy make the client
    exit with code 1 with no network traffic at all. Chunk mode with fewer
    than [8k] blocks makes [main] exit with code 1 as soon as it has the
    manifest: the mirror list is not requested and no mirror is contacted,
    and when the manifest is read from disk there is no network traffic. *)
Theorem parameter_errors_exit_1 env :
  (forall parsed args,
      numberofmirrors parsed < 2
      \/ (exists r, redundancy parsed = Some r /\ (r < 2 \/ r > numberofmirrors parsed))
      \/ (redundancy parsed = None /\ (rng parsed = true \/ parallel parsed = true)) ->
      exists t, client env parsed args = (t, Exited 1) /\ network_free t = true)
  /\ (forall o t0 m r,
         load_manifest env o = (t0, Returned m) ->
         redundancy o = Some r ->
         blockcount m < 8 * numberofmirrors o ->
         main env o = (t0 ++ [Print block_count_too_low], Exited 1)
         /\ retrieval_free (t0 ++ [Print block_count_too_low]) = true
         /\ (retrievemanifestfrom o = EmptyString ->
             network_free (t0 ++ [Print block_count_too_low]) = true)).
Proof.
  split.
  - intros parsed args H.
    destruct (parse_options_refuses parsed args H) as [msg Hmsg].
    unfold client; rewrite Hmsg; simpl; eexists; split; reflexivity.
  - intros o t0 m r Hload Hr Hn.
    rewrite (main_after_load _ _ _ _ Hload), Hr.
    replace (blockcount m <? numberofmirrors o * 8) with true by (symmetry; apply Z.ltb_lt; lia).
    simpl; split; [reflexivity|].
    destruct (load_manifest_trace _ _ _ _ Hload) as [H1 H2].
    unfold retrieval_free, network_free in *; rewrite !forallb_app; simpl.
    split; [now rewrite H1 | intros He; now rewrite (H2 He)].
Qed.

Lemma parameter_errors_exit_1_witness :
  (exists t, client Samples.honest_env (Samples.opts "" 1 None false false) ["a"] = (t, Exited 1)
             /\ network_free t = true)
  /\ main Samples.honest_env (Samples.opts "" 2 (Some 2) false false)
     = ([FileRead "manifest.dat"] ++ [Print block_count_too_low], Exited 1).
Proof.
  split.
  - apply (proj1 (parameter_errors_exit_1 Samples.honest_env)); left; simpl; lia.
  - apply (proj2 (parameter_errors_exit_1 Samples.honest_env)
                 (Samples.opts "" 2 (Some 2) false false) [FileRead "manifest.dat"]
                 Samples.small_manifest 2);
      [reflexivity | reflexivity | simpl; lia].
Defined.

(** C3 as stated fails: with [--retrievemanifestfrom], two mirrors,
    redundancy 2 and a manifest of 8 blocks, the client asks the vendor for
    the manifest before it exits with code 1. *)
Lemma chunk_check_follows_manifest_download :
  blockcount Samples.small_manifest < 8 * 2
  /\ client Samples.honest_env
            (Samples.opts "vendor.example.org:62293" 2 (Some 2) false false) ["a"]
     = ([Print [AStr "RAID-PIR Client"; AStr "v0.9.5"];
         ManifestRequest "vendor.example.org:62293";
         FileWrite "manifest.dat" (b "manifest");
         Print block_count_too_low], Exited 1)
  /\ network_free
       (fst (client Samples.honest_env
                    (Samples.opts "vendor.example.org:62293" 2 (Some 2) false false) ["a"]))
     = false.
Proof. repeat split. Qed.

(** [main] once it has the manifest and the chunk check has passed: a
    requested file that the manifest does not list makes it print that the
    file is not listed and exit with code 2. *)
Lemma main_stops_at_unlisted_file env o t0 m name :
  load_manifest env o = (t0, Returned m) ->
  redundancy o = None \/ numberofmirrors o * 8 <= blockcount m ->
  In name (filestoretrieve o) ->
  ~ In name (get_filenames_in_release env m) ->
  exists missing t,
    In missing (filestoretrieve o)
    /\ ~ In missing (get_filenames_in_release env m)
    /\ main env o = (t ++ [Print (not_listed missing)], Exited 2)
    /\ retrieval_free (t ++ [Print (not_listed missing)]) = true.
Proof.
  intros Hload Hchunk Hin Hnot.
  rewrite (main_after_load _ _ _ _ Hload).
  replace ((blockcount m <? numberofmirrors o * 8) && is_some (redundancy o)) with false.
  2:{ destruct Hchunk as [->|Hge]; [now rewrite andb_false_r|].
      replace (blockcount m <? numberofmirrors o * 8) with false; [reflexivity|].
      symmetry; apply Z.ltb_ge; lia. }
  rewrite guard_skipped.
  destruct (report_manifest_returns o m (get_filenames_in_release env m)) as [t1 [Hrep [Hfree _]]].
  destruct (listing_check_exits (get_filenames_in_release env m) (filestoretrieve o))
    as [missing [H1 [H2 H3]]]; [now exists name|].
  exists missing, (t0 ++ t1); repeat split; auto.
  - rewrite Hrep; cbn [bind]; rewrite H3; simpl; now rewrite app_assoc.
  - destruct (load_manifest_trace _ _ _ _ Hload) as [H0 _].
    unfold retrieval_free in *; rewrite !forallb_app, H0, Hfree; reflexivity.
Qed.

(** When [parse_options] returns it has printed nothing. *)
Lemma parse_options_prints_nothing parsed args t o :
  parse_options parsed args = (t, Returned o) -> t = [].
Proof.
  unfold parse_options; intros H.
  repeat (apply guard_passed in H; destruct H as [_ H]).
  unfold ret in H; congruence.
Qed.

(** Opening the timing log asks nothing of the vendor or of a mirror. *)
Lemma start_logging_is_local env o t :
  when (timing o) (start_logging env o) = (t, Returned tt) -> retrieval_free t = true.
Proof.
  destruct (timing o); cbn [when].
  - unfold start_logging, fails, emit, bind.
    destruct (open_append_error env _); intros H; injection H as <-; reflexivity.
  - intros H; injection H as <-; reflexivity.
Qed.

(** What is left of the [__main__] block once the options are accepted and
    the timing log, if any, is open. *)
Lemma client_after_options env parsed args tp o tl :
  parse_options parsed args = (tp, Returned o) ->
  when (timing o) (start_logging env o) = (tl, Returned tt) ->
  client env parsed args =
  let (t, r) := main env o ;; when (timing o) (emit (LogWrite [AElapsed; AStr nl])) in
  (Print [AStr "RAID-PIR Client"; AStr (pirversion env)] :: tp ++ tl ++ t, r).
Proof.
  intros Hparse Hlog; unfold client, print, emit.
  cbn [bind]; rewrite Hparse; cbn [bind]; rewrite Hlog; cbn [bind].
  destruct (main env o ;; when (timing o) ([LogWrite [AElapsed; AStr nl]], Returned tt))
    as [t r]; reflexivity.
Qed.

(** C6, amended. When the run gets as far as the check of the file names
    ([parse_options] accepts the parameters, the timing log opens if [-t]
    asks for one, the manifest is obtained and parses, and the chunk check
    passes: no redundancy, or at least [8k] blocks), a requested file that
    the manifest does not list makes the client print that the file is not
    listed and exit with code 2; the mirror list is not requested and no
    mirror is contacted. *)
Theorem unlisted_file_exits_2 env parsed args tp o tl t0 m name :
  parse_options parsed args = (tp, Returned o) ->
  when (timing o) (start_logging env o) = (tl, Returned tt) ->
  load_manifest env o = (t0, Returned m) ->
  redundancy o = None \/ numberofmirrors o * 8 <= blockcount m ->
  In name args ->
  ~ In name (get_filenames_in_release env m) ->
  exists missing t,
    In missing args
    /\ ~ In missing (get_filenames_in_release env m)
    /\ client env parsed args = (t ++ [Print (not_listed missing)], Exited 2)
    /\ retrieval_free (t ++ [Print (not_listed missing)]) = true.
Proof.
  intros Hparse Hlog Hload Hchunk Hin Hnot.
  assert (Hfiles : filestoretrieve o = args)
    by (rewrite (parse_options_returns _ _ _ _ Hparse); reflexivity).
  rewrite <- Hfiles in Hin.
  destruct (main_stops_at_unlisted_file env o t0 m name Hload Hchunk Hin Hnot)
    as [missing [t [H1 [H2 [Hmain Hfree]]]]].
  rewrite Hfiles in H1.
  exists missing, (Print [AStr "RAID-PIR Client"; AStr (pirversion env)] :: tl ++ t).
  split; [assumption | split; [assumption|]].
  rewrite (client_after_options _ _ _ _ _ _ Hparse Hlog), Hmain.
  rewrite (parse_options_prints_nothing _ _ _ _ Hparse); cbn [bind app].
  split; [now rewrite app_assoc|].
  apply start_logging_is_local in Hlog.
  unfold retrieval_free in *; cbn [forallb is_retrieval negb andb].
  rewrite <- app_assoc, forallb_app, Hlog; exact Hfree.
Qed.

Lemma unlisted_file_exits_2_witness :
  exists missing t,
    In missing ["zzz"]
    /\ ~ In missing ["a"; "b"]
    /\ client Samples.honest_env (Samples.opts "" 2 None false false) ["zzz"]
       = (t ++ [Print (not_listed missing)], Exited 2)
    /\ retrieval_free (t ++ [Print (not_listed missing)]) = true.
Proof.
  apply (unlisted_file_exits_2 Samples.honest_env
           (Samples.opts "" 2 None false false) ["zzz"] []
           (set_filestoretrieve (Samples.opts "" 2 None false false) ["zzz"])
           [] [FileRead "manifest.dat"] Samples.small_manifest "zzz").
  - reflexivity.
  - reflexivity.
  - reflexivity.
  - left; reflexivity.
  - left; reflexivity.
  - simpl; intros [H|[H|[]]]; discriminate.
Defined.

(** C6 as stated fails: with two mirrors, redundancy 2 and a manifest of 8
    blocks, a request for a file that the manifest does not list ends with
    exit code 1, on the block count. *)
Lemma unlisted_file_can_exit_1 :
  ~ In "zzz" (get_filenames_in_release Samples.honest_env Samples.small_manifest)
  /\ client Samples.honest_env (Samples.opts "" 2 (Some 2) false false) ["zzz"]
     = ([Print [AStr "RAID-PIR Client"; AStr "v0.9.5"];
         FileRead "manifest.dat";
         Print block_count_too_low], Exited 1).
Proof.
  split; [|reflexivity].
  simpl; intros [H|[H|[]]]; discriminate.
Qed.

(** C10. With [--retrievemanifestfrom], when the bytes that the vendor sent
    do not parse, [main] ends with the exception of [parse_manifest] after
    the request to the vendor alone: no file is written. And whenever the
    local manifest file is written, what is written are the bytes from the
    vendor, and [parse_manifest] has accepted them. *)
Theorem manifest_is_parsed_before_it_is_written env o :
  retrievemanifestfrom o <> EmptyString ->
  (forall raw e,
      retrieve_rawmanifest env (retrievemanifestfrom o) = inr raw ->
      parse_manifest env raw = inl e ->
      main env o = ([ManifestRequest (retrievemanifestfrom o)], Raised e))
  /\ (forall name data,
         In (FileWrite name data) (fst (load_manifest env o)) ->
         name = manifestfilename o
         /\ retrieve_rawmanifest env (retrievemanifestfrom o) = inr data
         /\ exists m, parse_manifest env data = inr m).
Proof.
  intros Hne; split.
  - intros raw e Hraw Hparse; apply nonempty_true in Hne.
    unfold main, load_manifest; rewrite Hne, Hraw; simpl; rewrite Hparse; reflexivity.
  - intros name data Hin.
    destruct (load_manifest env o) as [t r] eqn:Hload.
    exact (load_manifest_writes _ _ _ _ _ _ Hload Hin).
Qed.

Lemma manifest_is_parsed_before_it_is_written_witness :
  main Samples.broken_env (Samples.opts "vendor.example.org:62293" 2 None false false)
  = ([ManifestRequest "vendor.example.org:62293"], Raised Samples.bad_manifest)
  /\ exists m, parse_manifest Samples.honest_env (b "manifest") = inr m.
Proof.
  split.
  - apply (proj1 (manifest_is_parsed_before_it_is_written Samples.broken_env
                    (Samples.opts "vendor.example.org:62293" 2 None false false)
                    ltac:(discriminate))
                 (b "garbage") Samples.bad_manifest); reflexivity.
  - apply (proj2 (manifest_is_parsed_before_it_is_written Samples.honest_env
                    (Samples.opts "vendor.example.org:62293" 2 None false false)
                    ltac:(discriminate))
                 "manifest.dat" (b "manifest")).
    right; left; reflexivity.
Defined.

(** *** Block selection *)

Lemma filter_twice {A} (f g : A -> bool) (l : list A) :
  filter f (filter g l) = filter (fun x => f x && g x) l.
Proof.
  induction l as [|x l IH]; simpl; [reflexivity|].
  destruct (g x); simpl; rewrite ?andb_true_r, ?andb_false_r; [destruct (f x)|]; now rewrite IH.
Qed.

Lemma filter_all {A} (f : A -> bool) (l : list A) :
  (forall x, f x = true) -> filter f l = l.
Proof. intros Hf; induction l as [|x l IH]; simpl; [|rewrite Hf, IH]; reflexivity. Qed.

Lemma add_blocks_cons x these needed :
  add_blocks (x :: these) needed
  = add_blocks these (if existsb (Z.eqb x) needed then needed else needed ++ [x]).
Proof. reflexivity. Qed.

Lemma add_blocks_app these1 these2 needed :
  add_blocks (these1 ++ these2) needed = add_blocks these2 (add_blocks these1 needed).
Proof. unfold add_blocks; apply fold_left_app. Qed.

(** The accumulator loop of lines 309-311 appends the first occurrences of
    the blocks that the accumulator does not hold yet. *)
Lemma add_blocks_appends these : forall needed,
  add_blocks these needed
  = needed ++ filter (fun y => negb (existsb (Z.eqb y) needed)) (first_occurrences these).
Proof.
  induction these as [|x these IH]; intros needed.
  - simpl; now rewrite app_nil_r.
  - rewrite add_blocks_cons, IH; cbn [first_occurrences filter].
    destruct (existsb (Z.eqb x) needed) eqn:Hx; cbn [negb].
    + f_equal; rewrite filter_twice; apply filter_ext; intros y.
      destruct (Z.eqb_spec y x) as [->|Hne]; [now rewrite Hx | now rewrite andb_true_r].
    + rewrite <- app_assoc; cbn [app]; do 2 f_equal.
      rewrite filter_twice; apply filter_ext; intros y.
      rewrite existsb_app; simpl; rewrite orb_false_r, negb_orb; reflexivity.
Qed.

Lemma add_blocks_from_nothing these : add_blocks these [] = first_occurrences these.
Proof. rewrite add_blocks_appends; simpl; now apply filter_all. Qed.

Lemma first_occurrences_In l : forall x, In x (first_occurrences l) <-> In x l.
Proof.
  induction l as [|a l IH]; intros x; simpl; [tauto|].
  rewrite filter_In, IH, negb_true_iff, Z.eqb_neq.
  destruct (Z.eq_dec a x); [subst|]; intuition congruence.
Qed.

Lemma first_occurrences_NoDup l : NoDup (first_occurrences l).
Proof.
  induction l as [|a l IH]; simpl; constructor.
  - rewrite filter_In, Z.eqb_refl; simpl; intros [_ H]; discriminate.
  - now apply NoDup_filter.
Qed.

Lemma needed_blocks_from env m files : forall needed blocks,
  needed_blocks env m files needed = inr blocks ->
  exists lists, block_lists env m files lists /\ blocks = add_blocks (List.concat lists) needed.
Proof.
  induction files as [|name files IH]; simpl; intros needed blocks H.
  - injection H as <-; exists []; split; [constructor | reflexivity].
  - destruct (get_blocklist_for_file env name m) as [e|these] eqn:Hget; [discriminate|].
    destruct (IH _ _ H) as [lists [Hl ->]].
    exists (these :: lists); split; [now constructor|].
    simpl; now rewrite add_blocks_app.
Qed.

Lemma block_lists_In env m files lists :
  block_lists env m files lists ->
  forall x, In x (List.concat lists) <->
            exists name these, In name files
                               /\ get_blocklist_for_file env name m = inr these /\ In x these.
Proof.
  induction 1 as [|name these files lists Hget _ IH]; intros x; simpl.
  - split; [tauto | intros [? [? [[] _]]]].
  - rewrite in_app_iff, IH; split.
    + intros [Hin|[n [t [Hn [Hg Ht]]]]]; [exists name, these | exists n, t]; auto.
    + intros [n [t [[<-|Hn] [Hg Ht]]]]; [left; congruence | right; exists n, t; auto].
Qed.

(** C4, amended. The blocks that the client needs are the blocks of the
    requested files, each once, in the order in which the block lists of the
    files, taken in request order, first name them. *)
Theorem needed_blocks_are_first_occurrences env m files blocks :
  needed_blocks env m files [] = inr blocks ->
  NoDup blocks
  /\ (forall x, In x blocks <->
                exists name these, In name files
                                   /\ get_blocklist_for_file env name m = inr these
                                   /\ In x these)
  /\ exists lists, block_lists env m files lists
                   /\ blocks = first_occurrences (List.concat lists).
Proof.
  intros H; destruct (needed_blocks_from _ _ _ _ _ H) as [lists [Hl ->]].
  rewrite add_blocks_from_nothing; split; [apply first_occurrences_NoDup | split].
  - intros x; rewrite first_occurrences_In; now apply block_lists_In.
  - now exists lists.
Qed.

Lemma needed_blocks_are_first_occurrences_witness :
  needed_blocks Samples.honest_env Samples.small_manifest ["a"; "b"; "a"] [] = inr [0; 1; 2; 3]
  /\ NoDup [0; 1; 2; 3]
  /\ exists lists, block_lists Samples.honest_env Samples.small_manifest ["a"; "b"; "a"] lists
                   /\ [0; 1; 2; 3] = first_occurrences (List.concat lists).
Proof.
  split; [reflexivity|].
  destruct (needed_blocks_are_first_occurrences Samples.honest_env Samples.small_manifest
              ["a"; "b"; "a"] [0; 1; 2; 3] eq_refl) as [Hnodup [_ Hlists]].
  split; assumption.
Defined.

(** C4 as stated fails: asked for [b] and then [a], the client needs the
    blocks 2, 3, 0, 1 in that order, which is not ascending. *)
Lemma needed_blocks_not_ascending :
  needed_blocks Samples.honest_env Samples.small_manifest ["b"; "a"] [] = inr [2; 3; 0; 1]
  /\ ~ Sorted Z.lt [2; 3; 0; 1].
Proof.
  split; [reflexivity|].
  intros H; inversion H as [|? ? H1 _]; subst.
  inversion H1 as [|? ? _ H2]; subst.
  inversion H2 as [|? ? H3]; subst; lia.
Qed.

(** *** The integrity check *)

Lemma check_file_hash_passed name h infos t :
  check_file_hash name h infos = (t, Returned tt) ->
  t = []
  /\ exists before info after,
       infos = before ++ info :: after
       /\ (forall other, In other before -> filename other <> name)
       /\ filename info = name
       /\ hash info = h.
Proof.
  induction infos as [|i infos IH]; simpl; [discriminate|].
  destruct (String.eqb_spec (filename i) name) as [Heq|Hne].
  - destruct (bytes_eqb h (hash i)) eqn:Hh; [|discriminate].
    intros H; injection H as <-; split; [reflexivity|].
    exists [], i, infos; split; [reflexivity|]; split; [intros ? []|]; split; [assumption|].
    symmetry; now apply bytes_eqb_eq.
  - intros H; destruct (IH H) as [-> [before [info [after [-> [Hb [Hn Hh]]]]]]].
    split; [reflexivity|].
    exists (i :: before), info, after; split; [reflexivity|]; split; [|split; assumption].
    intros other [<-|Hin]; auto.
Qed.

Lemma check_file_hash_first_entry name h before info after :
  (forall other, In other before -> filename other <> name) ->
  filename info = name ->
  check_file_hash name h (before ++ info :: after)
  = if bytes_eqb h (hash info) then ret tt else raise corrupt_manifest.
Proof.
  intros Hb Hn; induction before as [|i before IH]; simpl.
  - rewrite Hn, String.eqb_refl; reflexivity.
  - destruct (String.eqb_spec (filename i) name) as [Heq|Hne].
    + exfalso; apply (Hb i); [now left | assumption].
    + apply IH; intros other Hin; apply Hb; now right.
Qed.

Lemma check_file_hash_silent name h infos : fst (check_file_hash name h infos) = [].
Proof.
  induction infos as [|i infos IH]; simpl; [reflexivity|].
  destruct (String.eqb (filename i) name); [destruct (bytes_eqb h (hash i)); reflexivity | exact IH].
Qed.

(** What one turn of the loop writes, it writes after the check passed. *)
Lemma write_file_checked env m blocks f t r name data :
  write_file env m blocks f = (t, r) ->
  In (FileWrite name data) t ->
  name = basename f /\ hash_check_passes env m blocks f data.
Proof.
  unfold write_file, hash_check_passes.
  destruct (extract_file_from_blockdict env f m blocks) as [e|filedata] eqn:He; simpl.
  { intros H; injection H as <- _; intros []. }
  destruct (find_hash env filedata (hashalgorithm m)) as [e|h] eqn:Hh; simpl.
  { intros H; injection H as <- _; intros []. }
  pose proof (check_file_hash_silent f h (fileinfolist m)) as Hs.
  destruct (check_file_hash f h (fileinfolist m)) as [tc rc] eqn:Hc; simpl in Hs; subst tc.
  destruct rc as [[]|c|e]; simpl.
  - destruct (check_file_hash_passed _ _ _ _ Hc) as [_ Hentry].
    assert (Hhead : forall rest,
               In (FileWrite name data) (FileWrite (basename f) filedata :: rest) ->
               (forall x, In x rest -> exists args, x = Print args) ->
               name = basename f /\ inr filedata = @inr exn bytes data
               /\ exists h0, find_hash env data (hashalgorithm m) = inr h0
                             /\ manifest_hash_is m f h0).
    { intros rest [Hin|Hin] Hrest.
      - injection Hin as <- <-; split; [reflexivity | split; [reflexivity | eauto]].
      - destruct (Hrest _ Hin); discriminate. }
    destruct (write_error env (basename f) filedata); simpl;
      intros H; injection H as <- _; intros Hin; apply (Hhead _ Hin).
    + intros x [].
    + intros x [<-|[]]; eauto.
  - intros H; injection H as <- _; intros [].
  - intros H; injection H as <- _; intros [].
Qed.


Lemma bind_run {A B} t (a : A) (k : A -> M B) :
  bind (t, Returned a) k = (t ++ fst (k a), snd (k a)).
Proof. simpl; destruct (k a); reflexivity. Qed.

Lemma write_files_cons env m blocks g files :
  write_files env m blocks (g :: files)
  = bind (write_file env m blocks g) (fun _ => write_files env m blocks files).
Proof. reflexivity. Qed.

Lemma write_files_checked env m blocks files : forall t r name data,
  write_files env m blocks files = (t, r) ->
  In (FileWrite name data) t ->
  exists f, In f files /\ name = basename f /\ hash_check_passes env m blocks f data.
Proof.
  induction files as [|g files IH]; intros t r name data H Hin.
  - injection H as <- _; destruct Hin.
  - rewrite write_files_cons in H.
    destruct (write_file env m blocks g) as [tg rg] eqn:Hg.
    assert (Hhere : In (FileWrite name data) tg ->
                    exists f, In f (g :: files) /\ name = basename f
                              /\ hash_check_passes env m blocks f data).
    { intros Hin'; exists g; split; [now left | eapply write_file_checked; eauto]. }
    destruct rg as [[]|c|e].
    + rewrite bind_run in H; injection H as <- _.
      apply in_app_or in Hin; destruct Hin as [Hin|Hin]; [auto|].
      destruct (write_files env m blocks files) as [t' r'] eqn:Hrest.
      destruct (IH _ _ _ _ eq_refl Hin) as [f [Hf Hrest']].
      exists f; split; [now right | assumption].
    + injection H as <- _; auto.
    + injection H as <- _; auto.
Qed.

(** Nothing in the body of the loop exits the process. *)
Lemma write_file_never_exits env m blocks f t c :
  write_file env m blocks f <> (t, Exited c).
Proof.
  unfold write_file.
  destruct (extract_file_from_blockdict env f m blocks) as [e|filedata]; simpl; [discriminate|].
  destruct (find_hash env filedata (hashalgorithm m)) as [e|h]; simpl; [discriminate|].
  assert (Hc : forall tc c', check_file_hash f h (fileinfolist m) <> (tc, Exited c')).
  { induction (fileinfolist m) as [|i infos IH]; simpl; [discriminate|].
    destruct (String.eqb (filename i) f); [destruct (bytes_eqb h (hash i)); discriminate | exact IH]. }
  destruct (check_file_hash f h (fileinfolist m)) as [tc [[]|c'|e]] eqn:Hcheck; simpl;
    [| exfalso; exact (Hc _ _ eq_refl) | discriminate].
  destruct (write_error env (basename f) filedata); simpl; discriminate.
Qed.




(** *** What the mirrors are asked for *)

Lemma bind_events {A B} (m : M A) (k : A -> M B) x :
  In x (fst (bind m k)) -> In x (fst m) \/ exists a, In x (fst (k a)).
Proof.
  unfold bind; destruct m as [t [a|c|e]]; simpl; auto.
  destruct (k a) as [t' r] eqn:Hk; simpl; intros Hin.
  apply in_app_or in Hin; destruct Hin; [now left | right; exists a; now rewrite Hk].
Qed.

Lemma bind_ret {A B} (a : A) (k : A -> M B) : bind (ret a) k = k a.
Proof. unfold bind, ret; destruct (k a); reflexivity. Qed.

Lemma write_file_events env m blocks f x :
  In x (fst (write_file env m blocks f)) -> is_retrieval x = false.
Proof.
  unfold write_file.
  destruct (extract_file_from_blockdict env f m blocks) as [e|filedata]; simpl; [intros []|].
  destruct (find_hash env filedata (hashalgorithm m)) as [e|h]; simpl; [intros []|].
  pose proof (check_file_hash_silent f h (fileinfolist m)) as Hs.
  destruct (check_file_hash f h (fileinfolist m)) as [tc [[]|c|e]]; simpl in Hs; subst tc; simpl;
    try (intros []).
  destruct (write_error env (basename f) filedata); simpl.
  - intros [<-|[]]; reflexivity.
  - intros [<-|[<-|[]]]; reflexivity.
Qed.

Lemma write_files_events env m blocks files x :
  In x (fst (write_files env m blocks files)) -> is_retrieval x = false.
Proof.
  induction files as [|g files IH]; [intros []|].
  rewrite write_files_cons; intros Hin.
  apply bind_events in Hin; destruct Hin as [Hin|[_ Hin]]; [|auto].
  now apply write_file_events in Hin.
Qed.

(** X6. The one request for blocks that [request_files_from_mirrors] makes
    carries the needed blocks as they were collected. *)
Lemma mirrors_are_asked_for_the_needed_blocks env o files r rng par m blocks :
  In (MirrorRequests blocks) (fst (request_files_from_mirrors env o files r rng par m)) ->
  needed_blocks env m files [] = inr blocks.
Proof.
  unfold request_files_from_mirrors.
  destruct (needed_blocks env m files []) as [e|needed]; [simpl; intros []|].
  unfold lift; rewrite bind_ret.
  intros Hin; apply bind_events in Hin; destruct Hin as [Hin|[bd Hin]].
  - unfold request_blocks_from_mirrors in Hin.
    apply bind_events in Hin; destruct Hin as [Hin|[mirrors Hin]].
    + destruct (vendorip o) as [ip|];
        [destruct (retrieve_mirrorinfolist env ip None)
        |destruct (retrieve_mirrorinfolist env (vendorhostname m) (Some (vendorport m)))];
        simpl in Hin; destruct Hin as [Hin|[]]; discriminate.
    + destruct (run_requestor env mirrors needed m o r rng par); simpl in Hin;
        destruct Hin as [Hin|[Hin|[]]]; try discriminate; injection Hin as <-; reflexivity.
  - apply write_files_events in Hin; discriminate.
Qed.

(** *** The workers *)

(** A failure is reported to the requestor only for an exception whose
    message contains the letters [socked]. *)
Lemma notify_failure_needs_socked kind socket (todo : script) t r thisrequest :
  request_loop kind socket todo = (t, r) ->
  In (NotifyFailure thisrequest) t ->
  exists e, In (thisrequest, Some e) todo /\ str_in "socked" (exc_str e) = true.
Proof.
  revert t r; induction todo as [|[q res] rest IH]; simpl; intros t r H Hin.
  - injection H as <- _; destruct Hin.
  - destruct res as [e|].
    + destruct (str_in "socked" (exc_str e)) eqn:Hs.
      * destruct (request_loop kind socket rest) as [t' r'] eqn:Hrest.
        simpl in H; injection H as <- _.
        simpl in Hin; destruct Hin as [Hin|[Hin|[Hin|Hin]]]; try discriminate.
        -- injection Hin as ->; exists e; auto.
        -- destruct (IH _ _ eq_refl Hin) as [e' [? ?]]; exists e'; auto.
      * simpl in H; injection H as <- _.
        simpl in Hin; destruct Hin as [Hin|[]]; discriminate.
    + destruct (request_loop kind socket rest) as [t' r'] eqn:Hrest.
      simpl in H; injection H as <- _.
      simpl in Hin; destruct Hin as [Hin|Hin]; try discriminate.
      destruct (IH _ _ eq_refl Hin) as [e' [? ?]]; exists e'; auto.
Qed.

(** An exception whose message lacks [socked] ends the worker at once: the
    exception leaves the helper and the requestor hears nothing. *)
Lemma other_exception_is_raised kind socket thisrequest e rest :
  str_in "socked" (exc_str e) = false ->
  request_loop kind socket ((thisrequest, Some e) :: rest)
  = ([XorSend kind socket (payload thisrequest)], Raised e).
Proof. intros Hs; simpl; rewrite Hs; reflexivity. Qed.

(** C2. A connection reset by the mirror on the first of two requests: both
    helpers raise the socket error, and [notify_failure] is not called. *)
Theorem socket_error_leaves_the_helpers :
  _request_helper [(Samples.request_1, Some Samples.reset_by_peer); (Samples.request_2, None)]
  = ([XorSend 0 7 (b "q1")], Raised Samples.reset_by_peer)
  /\ _request_helper_chunked
       [(Samples.request_1, Some Samples.reset_by_peer); (Samples.request_2, None)]
     = ([XorSend 3 7 (b "q1")], Raised Samples.reset_by_peer).
Proof. split; reflexivity. Qed.

End ClientFacts.

(** ** Facts about the vendor *)

Module VendorFacts.
Import Py Vendor.
Local Open Scope vendor_scope.

(** *** The mirror map *)

Lemma dict_get_keys index (d : mirrorinfodict) :
  In index (keys d) -> exists e, dict_get index d = Some e.
Proof.
  induction d as [|[i e] d IH]; simpl; [intros []|].
  destruct (String.eqb_spec i index) as [->|Hne]; [eauto|].
  intros [Heq|Hin]; [congruence | auto].
Qed.

Lemma dict_del_length index (d : mirrorinfodict) e :
  dict_get index d = Some e -> S (List.length (dict_del index d)) = List.length d.
Proof.
  induction d as [|[i e'] d IH]; simpl; [discriminate|].
  destruct (String.eqb i index); [reflexivity|].
  intros H; simpl; now rewrite IH.
Qed.

(** One turn of the loop of lines 104-109. *)
Lemma expiry_loop_step opts now used todo st :
  expiry_loop opts now used todo st =
  if negb (List.length (_global_mirrorinfodict st) =? used)%nat
  then (st, [], Raised runtime_error)
  else match todo with
       | [] => (st, [], Returned tt)
       | index :: rest =>
           match dict_get index (_global_mirrorinfodict st) with
           | None => (st, [], Raised (key_error index))
           | Some entry =>
               if expired opts now entry then
                 match expiry_loop opts now used rest
                         (State (dict_del index (_global_mirrorinfodict st))
                                (_global_rawmirrorlist st)) with
                 | (st', t, r) =>
                     (st', Log [LStr "RAID-PIR Vendor Removing Mirror due to timeout: ";
                                LStr index] :: t, r)
                 end
               else expiry_loop opts now used rest st
           end
       end.
Proof.
  destruct todo as [|index rest]; simpl; unfold bind, get; simpl;
    destruct (negb (List.length (_global_mirrorinfodict st) =? used)%nat); try reflexivity.
  destruct (dict_get index (_global_mirrorinfodict st)) as [entry|]; [|reflexivity].
  destruct (expired opts now entry); simpl.
  - destruct (expiry_loop opts now used rest _) as [[st' t] r]; reflexivity.
  - destruct (expiry_loop opts now used rest st) as [[st' t] r]; simpl.
    reflexivity.
Qed.

(** As soon as the loop deletes an entry, the next turn raises. *)
Lemma expiry_loop_after_delete opts now d raw index e rest :
  dict_get index d = Some e ->
  expiry_loop opts now (List.length d) rest (State (dict_del index d) raw)
  = (State (dict_del index d) raw, [], Raised runtime_error).
Proof.
  intros Hget; rewrite expiry_loop_step; simpl.
  replace (List.length (dict_del index d) =? List.length d)%nat with false; [reflexivity|].
  symmetry; apply Nat.eqb_neq; rewrite <- (dict_del_length index d e Hget); lia.
Qed.

(** With an expired mirror among the keys still to visit, the loop deletes
    the first one of them and ends with RuntimeError. *)
Lemma expiry_loop_raises opts now d raw : forall todo,
  (forall index, In index todo -> exists e, dict_get index d = Some e) ->
  (exists index e, In index todo /\ dict_get index d = Some e /\ expired opts now e = true) ->
  exists index e,
    In index todo /\ dict_get index d = Some e /\ expired opts now e = true
    /\ expiry_loop opts now (List.length d) todo (State d raw)
       = (State (dict_del index d) raw,
          [Log [LStr "RAID-PIR Vendor Removing Mirror due to timeout: "; LStr index]],
          Raised runtime_error).
Proof.
  induction todo as [|index rest IH]; intros Hkeys [i [e [Hin [Hget Hexp]]]]; [destruct Hin|].
  destruct (Hkeys index (or_introl eq_refl)) as [e0 He0].
  rewrite expiry_loop_step; simpl; rewrite Nat.eqb_refl; simpl; rewrite He0.
  destruct (expired opts now e0) eqn:Hexp0.
  - exists index, e0; split; [now left | split; [assumption | split; [assumption|]]].
    now rewrite (expiry_loop_after_delete opts now d raw index e0 rest He0).
  - destruct IH as [j [ej [Hj [Hgj [Hej Hrun]]]]].
    + intros k Hk; apply Hkeys; now right.
    + destruct Hin as [<-|Hin]; [congruence | exists i, e; auto].
    + exists j, ej; split; [now right | auto].
Qed.

(** With no expired mirror the loop changes nothing and returns. *)
Lemma expiry_loop_returns opts now d raw : forall todo,
  (forall index, In index todo ->
                 exists e, dict_get index d = Some e /\ expired opts now e = false) ->
  expiry_loop opts now (List.length d) todo (State d raw) = (State d raw, [], Returned tt).
Proof.
  induction todo as [|index rest IH]; intros Hkeys;
    rewrite expiry_loop_step; simpl; rewrite Nat.eqb_refl; simpl; [reflexivity|].
  destruct (Hkeys index (or_introl eq_refl)) as [e [-> ->]].
  apply IH; intros k Hk; apply Hkeys; now right.
Qed.

(** X14. With an expiry time that is an int of the float range
    ([float_exact]): whenever a mirror has expired, [GET MIRRORLIST] deletes
    one expired mirror, raises RuntimeError and sends no reply; the stored
    mirror list is not rebuilt. *)
Lemma get_mirrorlist_with_expired_mirror env opts now remoteip remoteport d raw :
  float_exact (mirrorexpirytime opts) ->
  (exists index e, In index (keys d) /\ dict_get index d = Some e
                   /\ expired opts now e = true) ->
  exists index e,
    dict_get index d = Some e /\ expired opts now e = true
    /\ handle env opts now true remoteip remoteport (b "GET MIRRORLIST") (State d raw)
       = (State (dict_del index d) raw,
          [Log [LStr "RAID-PIR Vendor Removing Mirror due to timeout: "; LStr index]],
          Raised runtime_error).
Proof.
  intros _ Hexp.
  destruct (expiry_loop_raises opts now d raw (keys d) (fun i Hi => dict_get_keys i d Hi) Hexp)
    as [index [e [_ [Hget [He Hrun]]]]].
  exists index, e; split; [assumption | split; [assumption|]].
  change (handle env opts now true remoteip remoteport (b "GET MIRRORLIST") (State d raw))
    with (handle_get_mirrorlist env opts now true remoteip remoteport (State d raw)).
  unfold handle_get_mirrorlist, _check_for_expired_mirrorinfo, bind at 1 2 3, get at 1; simpl.
  rewrite Hrun; reflexivity.
Qed.

(** X15. With an expiry time that is an int of the float range
    ([float_exact]), no expired mirror and the lock free, [GET MIRRORLIST]
    keeps the map and sends the packed list of the mirrors in it. *)
Lemma get_mirrorlist_without_expired_mirror env opts now remoteip remoteport d raw :
  float_exact (mirrorexpirytime opts) ->
  (forall index, In index (keys d) ->
                 exists e, dict_get index d = Some e /\ expired opts now e = false) ->
  send_error env (MPacked (map (fun kv => mirrorinfo (snd kv)) d)) = None ->
  handle env opts now true remoteip remoteport (b "GET MIRRORLIST") (State d raw)
  = (State d (MPacked (map (fun kv => mirrorinfo (snd kv)) d)),
     [Send (MPacked (map (fun kv => mirrorinfo (snd kv)) d));
      Log (who remoteip remoteport ++ [LStr " mirrorlist request"])],
     Returned tt).
Proof.
  intros _ Hnone Hsend.
  change (handle env opts now true remoteip remoteport (b "GET MIRRORLIST") (State d raw))
    with (handle_get_mirrorlist env opts now true remoteip remoteport (State d raw)).
  unfold handle_get_mirrorlist, _check_for_expired_mirrorinfo, bind at 1 2 3, get at 1; simpl.
  rewrite (expiry_loop_returns opts now d raw (keys d) Hnone); simpl.
  unfold sendmessage, bind, emit; simpl; rewrite Hsend; reflexivity.
Qed.

(** C8. One mirror that advertised itself at time 0, an expiry time of 300
    seconds, and a [GET MIRRORLIST] request at time 1000: the vendor removes
    the mirror, raises RuntimeError in the removal loop and sends no reply. *)
Theorem get_mirrorlist_raises_on_expired_mirror :
  handle Samples.vendor_env Samples.vendor_options 1000%float true "10.0.0.9" 40000
         (b "GET MIRRORLIST") Samples.one_mirror
  = (State [] (MPacked [Samples.mirror_1]),
     [Log [LStr "RAID-PIR Vendor Removing Mirror due to timeout: "; LStr "10.0.0.1:62294"]],
     Raised runtime_error).
Proof. reflexivity. Qed.

(** *** Mirror advertisements *)

(** An advertisement that passes every check and whose ['ip'] is a str is
    stored under ['ip:port'], in place of an earlier entry of that key, and
    answered with [OK]. *)
Lemma advertise_accepted env opts now remoteip remoteport payload d ip port st :
  Z.of_nat (List.length payload) <= maxmirrorinfo opts ->
  unpackb env payload = Unpacked (VDict d) ->
  item "ip" d = Some (VStr ip) ->
  item "port" d = Some port ->
  (checkmirrorip opts = true -> ip = remoteip) ->
  send_error env (MStr "OK") = None ->
  handle_mirroradvertise env opts now remoteip remoteport (b "MIRRORADVERTISE" ++ payload) st
  = (State (dict_set (ip ++ ":" ++ str env port)%string (MirrorEntry (VDict d) now)
                     (_global_mirrorinfodict st))
           (_global_rawmirrorlist st),
     [Log (who remoteip remoteport ++ [LStr " mirror advertise"]);
      Log [LStr "RAID-PIR Vendor _add_mirrorinfo_to_list "; LVal (VDict d)];
      Send (MStr "OK");
      Log (who remoteip remoteport
           ++ [LStr " mirrorinfo update "; LInt (Z.of_nat (List.length payload))])],
     Returned tt).
Proof.
  intros Hlen Hun Hip Hport Hcheck Hsend.
  unfold handle_mirroradvertise.
  replace (skipn (List.length (b "MIRRORADVERTISE")) (b "MIRRORADVERTISE" ++ payload))
    with payload by reflexivity.
  replace (Z.of_nat (List.length payload) >? maxmirrorinfo opts) with false
    by (symmetry; rewrite Z.gtb_ltb; apply Z.ltb_ge; lia).
  rewrite Hun; unfold has_key; rewrite Hip, Hport; cbn [negb orb differs].
  assert (Hc : checkmirrorip opts && negb (String.eqb ip remoteip) = false).
  { destruct (checkmirrorip opts); [|reflexivity].
    rewrite (Hcheck eq_refl), String.eqb_refl; reflexivity. }
  rewrite Hc; unfold _add_mirrorinfo_to_list; rewrite Hip, Hport.
  unfold sendmessage, bind, log, emit, get, put; simpl; rewrite Hsend; reflexivity.
Qed.

(** An advertisement whose ['ip'] is not a str passes the checks of the
    handler when [--checkmirrorip] is off; building the key then raises
    TypeError: nothing is stored and nothing is sent. *)
Lemma advertise_with_other_ip_raises env opts now remoteip remoteport payload d ip port st :
  Z.of_nat (List.length payload) <= maxmirrorinfo opts ->
  unpackb env payload = Unpacked (VDict d) ->
  item "ip" d = Some ip ->
  (forall s, ip <> VStr s) ->
  item "port" d = Some port ->
  checkmirrorip opts = false ->
  handle_mirroradvertise env opts now remoteip remoteport (b "MIRRORADVERTISE" ++ payload) st
  = (st,
     [Log (who remoteip remoteport ++ [LStr " mirror advertise"]);
      Log [LStr "RAID-PIR Vendor _add_mirrorinfo_to_list "; LVal (VDict d)]],
     Raised (type_error "unsupported operand type(s) for +")).
Proof.
  intros Hlen Hun Hip Hnot Hport Hcheck.
  unfold handle_mirroradvertise.
  replace (skipn (List.length (b "MIRRORADVERTISE")) (b "MIRRORADVERTISE" ++ payload))
    with payload by reflexivity.
  replace (Z.of_nat (List.length payload) >? maxmirrorinfo opts) with false
    by (symmetry; rewrite Z.gtb_ltb; apply Z.ltb_ge; lia).
  rewrite Hun; unfold has_key; rewrite Hip, Hport, Hcheck; cbn [negb orb andb].
  unfold _add_mirrorinfo_to_list; rewrite Hip, Hport.
  destruct ip; try (exfalso; eapply Hnot; reflexivity); reflexivity.
Qed.

(** C9. The advertisement [{'ip': 5, 'port': 62294}], 13 bytes of msgpack,
    sent to a vendor that runs without [--checkmirrorip]: it is a dict with
    both keys, and the vendor raises TypeError, stores nothing and sends
    nothing. *)
Theorem advertise_with_int_ip_raises :
  handle Samples.vendor_env Samples.vendor_options 1000%float true "10.0.0.9" 40000
         (b "MIRRORADVERTISE" ++ Samples.packed_int_ip) Samples.one_mirror
  = (Samples.one_mirror,
     [Log [LStr "RAID-PIR Vendor "; LStr "10.0.0.9"; LStr " "; LInt 40000;
           LStr " mirror advertise"];
      Log [LStr "RAID-PIR Vendor _add_mirrorinfo_to_list "; LVal Samples.mirror_int_ip]],
     Raised (type_error "unsupported operand type(s) for +")).
Proof. reflexivity. Qed.

End VendorFacts.

(** ** More facts about the client *)

Module ClientMore.
Import Py Client ClientFacts.
Local Open Scope py_scope.

(** *** Option parsing *)

(** X1. [parse_options] returns exactly for these parameters: at least two
    mirrors; a redundancy, when given, between 2 and the number of mirrors;
    rng and parallel only with a redundancy; and a file to retrieve unless
    [--printfilenames] is given. It then prints nothing and stores the
    remaining arguments as the files. For every other parameter it prints
    one line and exits with code 1. *)
Theorem parse_options_accepts_exactly parsed args :
  ((2 <= numberofmirrors parsed
    /\ match redundancy parsed with
       | Some r => 2 <= r <= numberofmirrors parsed
       | None => rng parsed = false /\ parallel parsed = false
       end
    /\ (args <> [] \/ printfiles parsed = true))
   <-> exists t o, parse_options parsed args = (t, Returned o))
  /\ (parse_options parsed args
      = ([], Returned (set_filestoretrieve
                         (if parallel parsed then set_rng parsed true else parsed) args))
      \/ exists msg, parse_options parsed args = ([Print msg], Exited 1)).
Proof.
  assert (Hrun : forall o,
             numberofmirrors o = numberofmirrors parsed ->
             redundancy o = redundancy parsed ->
             rng o || parallel o = rng parsed || parallel parsed ->
             printfiles o = printfiles parsed ->
             let run :=
               (when (numberofmirrors o <? 2)
                     (print [AStr "Mirrors to contact must be > 1"] ;; sys_exit 1) ;;
                when (match redundancy o with Some r => r <? 2 | None => false end)
                     (print [AStr "Redundancy must be > 1"] ;; sys_exit 1) ;;
                when (match redundancy o with
                      | Some r => r >? numberofmirrors o
                      | None => false
                      end)
                     (print [AStr "Redundancy must be less or equal to number of mirrors (";
                             AInt (numberofmirrors o); AStr ")"] ;; sys_exit 1) ;;
                when ((rng o || parallel o) && negb (truthy (redundancy o)))
                     (print [AStr "Chunks must be enabled and redundancy set (-r <number>) to use RNG or parallel queries!"] ;;
                      sys_exit 1) ;;
                when ((List.length args =? 0)%nat && Bool.eqb (printfiles o) false)
                     (print [AStr "Must specify at least one file to retrieve!"] ;; sys_exit 1) ;;
                ret (set_filestoretrieve o args)) in
             ((2 <= numberofmirrors parsed
               /\ match redundancy parsed with
                  | Some r => 2 <= r <= numberofmirrors parsed
                  | None => rng parsed = false /\ parallel parsed = false
                  end
               /\ (args <> [] \/ printfiles parsed = true))
              /\ run = ([], Returned (set_filestoretrieve o args)))
             \/ (~ (2 <= numberofmirrors parsed
                    /\ match redundancy parsed with
                       | Some r => 2 <= r <= numberofmirrors parsed
                       | None => rng parsed = false /\ parallel parsed = false
                       end
                    /\ (args <> [] \/ printfiles parsed = true))
                 /\ exists msg, run = ([Print msg], Exited 1))).
  { intros o Hk Hr Hg Hp run; subst run; rewrite Hk, Hr, Hg, Hp.
    destruct (numberofmirrors parsed <? 2) eqn:E1.
    { right; split; [apply Z.ltb_lt in E1; lia | eexists; reflexivity]. }
    rewrite guard_skipped; apply Z.ltb_ge in E1.
    assert (Hfiles : forall (rest : bool),
               rest = false ->
               (args <> [] \/ printfiles parsed = true) ->
               bind (when rest (print [AStr "dummy"] ;; sys_exit 1))
                    (fun _ => bind (when ((List.length args =? 0)%nat
                                          && Bool.eqb (printfiles parsed) false)
                                         (print [AStr "Must specify at least one file to retrieve!"] ;;
                                          sys_exit 1))
                                   (fun _ => ret (set_filestoretrieve o args)))
               = ([], Returned (set_filestoretrieve o args))).
    { intros rest -> Hf; rewrite guard_skipped.
      replace ((List.length args =? 0)%nat && Bool.eqb (printfiles parsed) false) with false;
        [reflexivity|].
      destruct Hf as [Hf| ->]; [|now rewrite andb_false_r].
      destruct args; [congruence | reflexivity]. }
    assert (Hnofiles : ~ (args <> [] \/ printfiles parsed = true) ->
                       (List.length args =? 0)%nat && Bool.eqb (printfiles parsed) false = true).
    { intros Hn; destruct args; [|exfalso; apply Hn; left; discriminate].
      destruct (printfiles parsed); [exfalso; apply Hn; now right | reflexivity]. }
    destruct (redundancy parsed) as [r|] eqn:Er.
    - destruct (r <? 2) eqn:E2.
      { right; split; [apply Z.ltb_lt in E2; lia | eexists; reflexivity]. }
      rewrite guard_skipped; apply Z.ltb_ge in E2.
      destruct (r >? numberofmirrors parsed) eqn:E3.
      { right; split; [apply Z.gtb_lt in E3; lia | eexists; reflexivity]. }
      rewrite guard_skipped.
      assert (Hle : r <= numberofmirrors parsed).
      { rewrite Z.gtb_ltb in E3; apply Z.ltb_ge in E3; exact E3. }
      assert (Ht : truthy (Some r) = true).
      { simpl; destruct (Z.eqb_spec r 0); [lia | reflexivity]. }
      rewrite Ht, andb_false_r, guard_skipped.
      destruct (List.length args =? 0)%nat eqn:E5; [destruct (printfiles parsed) eqn:E6|].
      + left; split; [split; [lia | split; [lia | now right]] | reflexivity].
      + right; split; [|eexists; reflexivity].
        intros [_ [_ [Hf|Hf]]]; [|discriminate].
        destruct args; [congruence | discriminate].
      + left; split; [|reflexivity].
        split; [lia | split; [lia | left; destruct args; [discriminate | discriminate]]].
    - rewrite !guard_skipped; simpl truthy; cbn [negb]; rewrite andb_true_r.
      destruct (rng parsed || parallel parsed) eqn:E4.
      { right; split; [|eexists; reflexivity].
        intros [_ [[H1 H2] _]]; rewrite H1, H2 in E4; discriminate. }
      rewrite guard_skipped; apply orb_false_elim in E4; destruct E4 as [E4 E4'].
      destruct (List.length args =? 0)%nat eqn:E5; [destruct (printfiles parsed) eqn:E6|].
      + left; split; [split; [lia | split; [auto | now right]] | reflexivity].
      + right; split; [|eexists; reflexivity].
        intros [_ [_ [Hf|Hf]]]; [|discriminate].
        destruct args; [congruence | discriminate].
      + left; split; [|reflexivity].
        split; [lia | split; [auto | left; destruct args; discriminate]]. }
  assert (Hcases := Hrun (if parallel parsed then set_rng parsed true else parsed)).
  assert (H1 : numberofmirrors (if parallel parsed then set_rng parsed true else parsed)
               = numberofmirrors parsed) by (destruct (parallel parsed); reflexivity).
  assert (H2 : redundancy (if parallel parsed then set_rng parsed true else parsed)
               = redundancy parsed) by (destruct (parallel parsed); reflexivity).
  assert (H3 : rng (if parallel parsed then set_rng parsed true else parsed)
               || parallel (if parallel parsed then set_rng parsed true else parsed)
               = rng parsed || parallel parsed).
  { destruct (parallel parsed) eqn:E; simpl; rewrite ?E; [now rewrite orb_true_r | reflexivity]. }
  assert (H4 : printfiles (if parallel parsed then set_rng parsed true else parsed)
               = printfiles parsed) by (destruct (parallel parsed); reflexivity).
  specialize (Hcases H1 H2 H3 H4); cbv zeta in Hcases.
  change (parse_options parsed args) with
    (let o := if parallel parsed then set_rng parsed true else parsed in
     when (numberofmirrors o <? 2)
          (print [AStr "Mirrors to contact must be > 1"] ;; sys_exit 1) ;;
     when (match redundancy o with Some r => r <? 2 | None => false end)
          (print [AStr "Redundancy must be > 1"] ;; sys_exit 1) ;;
     when (match redundancy o with Some r => r >? numberofmirrors o | None => false end)
          (print [AStr "Redundancy must be less or equal to number of mirrors (";
                  AInt (numberofmirrors o); AStr ")"] ;; sys_exit 1) ;;
     when ((rng o || parallel o) && negb (truthy (redundancy o)))
          (print [AStr "Chunks must be enabled and redundancy set (-r <number>) to use RNG or parallel queries!"] ;;
           sys_exit 1) ;;
     when ((List.length args =? 0)%nat && Bool.eqb (printfiles o) false)
          (print [AStr "Must specify at least one file to retrieve!"] ;; sys_exit 1) ;;
     ret (set_filestoretrieve o args)); cbv zeta.
  destruct Hcases as [[Hv Hret]|[Hnv [msg Hexit]]].
  - rewrite Hret; split; [split; [eauto | intros _; exact Hv] | now left].
  - rewrite Hexit; split; [split; [intros Hv; contradiction | intros [t [o H]]; discriminate]|].
    right; now exists msg.
Qed.

Lemma parse_options_accepts_exactly_witness :
  (exists t o, parse_options (Samples.opts "" 3 (Some 2) true false) ["a"] = (t, Returned o))
  /\ exists msg, parse_options (Samples.opts "" 3 None false false) [] = ([Print msg], Exited 1).
Proof.
  split.
  - apply (proj1 (parse_options_accepts_exactly (Samples.opts "" 3 (Some 2) true false) ["a"])).
    simpl; split; [lia | split; [lia | left; discriminate]].
  - destruct (proj2 (parse_options_accepts_exactly (Samples.opts "" 3 None false false) []))
      as [H|H]; [discriminate | exact H].
Defined.

(** *** [main] without files *)

(** X2. With no file to retrieve ([--printfilenames] alone) [main] never
    asks for the mirror list and never contacts a mirror; once it has the
    manifest and the chunk check passes, it reports the manifest and
    returns. *)
Theorem printing_file_names_retrieves_nothing env o :
  filestoretrieve o = [] ->
  retrieval_free (fst (main env o)) = true
  /\ forall t0 m,
       load_manifest env o = (t0, Returned m) ->
       redundancy o = None \/ numberofmirrors o * 8 <= blockcount m ->
       main env o
       = (t0 ++ fst (report_manifest o m (get_filenames_in_release env m)), Returned tt).
Proof.
  intros Hfiles.
  assert (Hpass : forall t0 m,
             load_manifest env o = (t0, Returned m) ->
             (blockcount m <? numberofmirrors o * 8) && is_some (redundancy o) = false ->
             main env o
             = (t0 ++ fst (report_manifest o m (get_filenames_in_release env m)), Returned tt)).
  { intros t0 m Hload Hc.
    rewrite (main_after_load _ _ _ _ Hload), Hc, Hfiles, guard_skipped.
    destruct (report_manifest_returns o m (get_filenames_in_release env m)) as [t1 [Hrep _]].
    rewrite Hrep; simpl; now rewrite app_nil_r. }
  split.
  - destruct (load_manifest env o) as [t0 [m|c|e]] eqn:Hload.
    + destruct (load_manifest_trace _ _ _ _ Hload) as [H0 _].
      destruct ((blockcount m <? numberofmirrors o * 8) && is_some (redundancy o)) eqn:Hc.
      * rewrite (main_after_load _ _ _ _ Hload), Hc, guard_fired; simpl.
        unfold retrieval_free in *; rewrite forallb_app, H0; reflexivity.
      * rewrite (Hpass _ _ eq_refl Hc); simpl.
        destruct (report_manifest_returns o m (get_filenames_in_release env m))
          as [t1 [Hrep [Hfree _]]].
        rewrite Hrep; simpl; unfold retrieval_free in *; rewrite forallb_app, H0, Hfree.
        reflexivity.
    + destruct (load_manifest_trace _ _ _ _ Hload) as [H0 _].
      unfold main; rewrite Hload; exact H0.
    + destruct (load_manifest_trace _ _ _ _ Hload) as [H0 _].
      unfold main; rewrite Hload; exact H0.
  - intros t0 m Hload Hchunk; apply Hpass; [assumption|].
    destruct Hchunk as [->|Hge]; [now rewrite andb_false_r|].
    replace (blockcount m <? numberofmirrors o * 8) with false; [reflexivity|].
    symmetry; apply Z.ltb_ge; lia.
Qed.

Lemma printing_file_names_retrieves_nothing_witness :
  retrieval_free (fst (main Samples.honest_env
                            (Client.Options "" true None "manifest.dat" 2 None
                                            false false false false "" []))) = true
  /\ main Samples.honest_env
          (Client.Options "" true None "manifest.dat" 2 None false false false false "" [])
     = ([FileRead "manifest.dat"]
          ++ fst (report_manifest
                    (Client.Options "" true None "manifest.dat" 2 None
                                    false false false false "" [])
                    Samples.small_manifest ["a"; "b"]),
        Returned tt).
Proof.
  pose proof (printing_file_names_retrieves_nothing Samples.honest_env
                (Client.Options "" true None "manifest.dat" 2 None
                                false false false false "" []) eq_refl) as [Hfree Hrun].
  split; [exact Hfree|].
  apply (Hrun [FileRead "manifest.dat"] Samples.small_manifest); [reflexivity | now left].
Defined.

(** *** Block selection *)

Lemma needed_blocks_app env m files1 : forall files2 needed,
  needed_blocks env m (files1 ++ files2) needed
  = match needed_blocks env m files1 needed with
    | inl e => inl e
    | inr blocks => needed_blocks env m files2 blocks
    end.
Proof.
  induction files1 as [|f files1 IH]; intros files2 needed; simpl; [reflexivity|].
  destruct (get_blocklist_for_file env f m); [reflexivity | apply IH].
Qed.

Lemma add_blocks_known these : forall needed,
  (forall x, In x these -> In x needed) -> add_blocks these needed = needed.
Proof.
  induction these as [|x these IH]; intros needed Hin; [reflexivity|].
  rewrite add_blocks_cons.
  replace (existsb (Z.eqb x) needed) with true.
  - apply IH; intros y Hy; apply Hin; now right.
  - symmetry; apply existsb_exists; exists x; split; [apply Hin; now left | apply Z.eqb_refl].
Qed.

Lemma block_lists_total env m files lists :
  block_lists env m files lists ->
  forall f, In f files -> exists these, get_blocklist_for_file env f m = inr these.
Proof.
  induction 1 as [|name these files lists Hget _ IH]; intros f; simpl; [intros []|].
  intros [<-|Hin]; eauto.
Qed.

(** X3. A requested file whose block list cannot be found ends
    [request_files_from_mirrors] with the exception of the lookup, the one
    of the first such file, before anything is printed, written or sent. *)
Theorem unknown_file_stops_before_any_request env o m r rng par before f after e :
  (forall g, In g before -> exists these, get_blocklist_for_file env g m = inr these) ->
  get_blocklist_for_file env f m = inl e ->
  request_files_from_mirrors env o (before ++ f :: after) r rng par m = ([], Raised e).
Proof.
  intros Hbefore Hf.
  assert (Hneeded : forall needed,
             needed_blocks env m (before ++ f :: after) needed = inl e).
  { induction before as [|g before IH]; intros needed; simpl.
    - now rewrite Hf.
    - destruct (Hbefore g (or_introl eq_refl)) as [these ->].
      apply IH; intros g' Hg'; apply Hbefore; now right. }
  unfold request_files_from_mirrors; rewrite Hneeded; reflexivity.
Qed.

Lemma unknown_file_stops_before_any_request_witness :
  request_files_from_mirrors Samples.honest_env (Samples.opts "" 2 None false false)
                             (["a"] ++ "zzz" :: ["b"]) None false false Samples.small_manifest
  = ([], Raised Samples.not_in_manifest).
Proof.
  apply (unknown_file_stops_before_any_request Samples.honest_env
           (Samples.opts "" 2 None false false) Samples.small_manifest None false false
           ["a"] "zzz" ["b"] Samples.not_in_manifest).
  - intros g [<-|[]]; exists [0; 1]; reflexivity.
  - reflexivity.
Defined.

(** X4. Naming again files that are already requested changes nothing in
    the blocks that the client needs. *)
Theorem repeated_files_need_no_more_blocks env m files again blocks :
  needed_blocks env m files [] = inr blocks ->
  (forall f, In f again -> In f files) ->
  needed_blocks env m (files ++ again) [] = inr blocks.
Proof.
  intros H Hagain; rewrite needed_blocks_app, H.
  destruct (needed_blocks_from _ _ _ _ _ H) as [lists [Hl Hb]].
  rewrite add_blocks_from_nothing in Hb.
  assert (Hknown : forall f these,
             In f files -> get_blocklist_for_file env f m = inr these ->
             forall x, In x these -> In x blocks).
  { intros f these Hf Hget x Hx; subst blocks; apply first_occurrences_In.
    apply (block_lists_In _ _ _ _ Hl); exists f, these; auto. }
  clear H Hb; induction again as [|f again IH]; simpl; [reflexivity|].
  destruct (block_lists_total _ _ _ _ Hl f (Hagain f (or_introl eq_refl))) as [these Hget].
  rewrite Hget, (add_blocks_known these blocks (Hknown f these (Hagain f (or_introl eq_refl)) Hget)).
  apply IH; intros g Hg; apply Hagain; now right.
Qed.

Lemma repeated_files_need_no_more_blocks_witness :
  needed_blocks Samples.honest_env Samples.small_manifest (["b"; "a"] ++ ["a"; "b"; "b"]) []
  = inr [2; 3; 0; 1].
Proof.
  apply (repeated_files_need_no_more_blocks Samples.honest_env Samples.small_manifest
           ["b"; "a"] ["a"; "b"; "b"] [2; 3; 0; 1]).
  - reflexivity.
  - intros f [<-|[<-|[<-|[]]]]; simpl; auto.
Defined.

Lemma mirrors_are_asked_for_the_needed_blocks_witness :
  In (MirrorRequests [2; 3; 0; 1])
     (fst (request_files_from_mirrors Samples.honest_env (Samples.opts "" 2 None false false)
                                      ["b"; "a"] None false false Samples.small_manifest))
  /\ needed_blocks Samples.honest_env Samples.small_manifest ["b"; "a"] [] = inr [2; 3; 0; 1].
Proof.
  assert (Hin : In (MirrorRequests [2; 3; 0; 1])
                   (fst (request_files_from_mirrors
                           Samples.honest_env (Samples.opts "" 2 None false false)
                           ["b"; "a"] None false false Samples.small_manifest))).
  { simpl; right; right; left; reflexivity. }
  split; [exact Hin|].
  exact (mirrors_are_asked_for_the_needed_blocks _ _ _ _ _ _ _ _ Hin).
Defined.

(** *** The returned blocks *)

Lemma dict_set_known (return_block : Z -> bytes) blocknum : forall known,
  dict_set blocknum (return_block blocknum) (map (fun x => (x, return_block x)) known)
  = map (fun x => (x, return_block x))
        (if existsb (Z.eqb blocknum) known then known else known ++ [blocknum]).
Proof.
  induction known as [|k known IH]; simpl; [reflexivity|].
  rewrite (Z.eqb_sym blocknum k).
  destruct (Z.eqb_spec k blocknum) as [->|Hne]; simpl; [reflexivity|].
  rewrite IH; destruct (existsb (Z.eqb blocknum) known); reflexivity.
Qed.

Lemma retdict_is_a_map (return_block : Z -> bytes) requested : forall known,
  fold_left (fun retdict blocknum => dict_set blocknum (return_block blocknum) retdict)
            requested (map (fun x => (x, return_block x)) known)
  = map (fun x => (x, return_block x)) (add_blocks requested known).
Proof.
  induction requested as [|x requested IH]; intros known; [reflexivity|].
  rewrite add_blocks_cons; cbn [fold_left]; rewrite dict_set_known; apply IH.
Qed.

(** X5. When [request_blocks_from_mirrors] returns, its dict holds one
    entry for each requested block, in the order in which the blocks were
    first requested, and the entry of a block is what [return_block] gives
    for it. *)
Theorem returned_blocks_are_the_requested_ones env o requested m r rng par t retdict :
  request_blocks_from_mirrors env o requested m r rng par = (t, Returned retdict) ->
  exists mirrors return_block,
    run_requestor env mirrors requested m o r rng par = inr return_block
    /\ retdict = map (fun blocknum => (blocknum, return_block blocknum))
                     (first_occurrences requested).
Proof.
  unfold request_blocks_from_mirrors; intros H.
  apply bind_returned in H; destruct H as [t1 [mirrors [t2 [_ [H _]]]]].
  apply bind_returned in H; destruct H as [t3 [[] [t4 [_ [H _]]]]].
  apply bind_returned in H; destruct H as [t5 [[] [t6 [_ [H _]]]]].
  apply bind_returned in H; destruct H as [t7 [return_block [t8 [Hrun [H _]]]]].
  exists mirrors, return_block; split.
  - destruct (run_requestor env mirrors requested m o r rng par) as [e|f];
      [discriminate | injection Hrun as _ ->; reflexivity].
  - injection H as _ <-.
    rewrite <- add_blocks_from_nothing.
    exact (retdict_is_a_map return_block requested []).
Qed.

Lemma returned_blocks_are_the_requested_ones_witness :
  exists mirrors return_block,
    run_requestor Samples.honest_env mirrors [2; 3; 2] Samples.small_manifest
                  (Samples.opts "" 2 None false false) None false false = inr return_block
    /\ [(2, b "xx"); (3, b "xx")]
       = map (fun blocknum => (blocknum, return_block blocknum)) (first_occurrences [2; 3; 2]).
Proof.
  apply (returned_blocks_are_the_requested_ones Samples.honest_env
           (Samples.opts "" 2 None false false) [2; 3; 2] Samples.small_manifest
           None false false
           [MirrorlistRequest "vendor.example.org" (Some 62293);
            Print [AStr "Mirrors: "; AMirrors [("10.0.0.1", 62294); ("10.0.0.2", 62294)]];
            MirrorRequests [2; 3; 2]]).
  reflexivity.
Defined.

(** *** Writing the files *)

Lemma chars_app (s1 s2 : string) : chars (s1 ++ s2)%string = chars s1 ++ chars s2.
Proof. induction s1 as [|c s1 IH]; simpl; [reflexivity | unfold chars in *; simpl; now rewrite IH]. Qed.

Lemma basename_from_no_slash p : forall acc,
  ~ In "/"%char (chars acc) -> ~ In "/"%char (chars (basename_from p acc)).
Proof.
  induction p as [|c p IH]; intros acc Hacc; simpl; [assumption|].
  destruct (Ascii.eqb_spec c "/"%char) as [->|Hne].
  - apply IH; intros [].
  - apply IH; rewrite chars_app; intros Hin; apply in_app_or in Hin.
    destruct Hin as [Hin|[Hin|[]]]; [contradiction | congruence].
Qed.

(** X7. Whatever the names of the requested files, a file is written under
    a name without a slash: into the working directory and nowhere else. *)
Theorem files_are_written_into_the_working_directory env m blocks files t r name data :
  write_files env m blocks files = (t, r) ->
  In (FileWrite name data) t ->
  ~ In "/"%char (chars name).
Proof.
  intros H Hin.
  destruct (write_files_checked _ _ _ _ _ _ _ _ H Hin) as [f [_ [-> _]]].
  apply basename_from_no_slash; intros [].
Qed.

Lemma files_are_written_into_the_working_directory_witness :
  write_files Samples.honest_env Samples.small_manifest [] ["a"]
  = ([FileWrite "a" Samples.data_a; Print [AStr "wrote"; AStr "a"]], Returned tt)
  /\ ~ In "/"%char (chars "a").
Proof.
  split; [reflexivity|].
  apply (files_are_written_into_the_working_directory Samples.honest_env
           Samples.small_manifest [] ["a"] _ _ "a" Samples.data_a eq_refl).
  left; reflexivity.
Defined.




Lemma write_file_passes env m blocks f filedata :
  hash_check_passes env m blocks f filedata ->
  write_error env (basename f) filedata = None ->
  write_file env m blocks f
  = ([FileWrite (basename f) filedata; Print [AStr "wrote"; AStr (basename f)]], Returned tt).
Proof.
  intros [He [h [Hh [before [info [after [Hl [Hb [Hn Hi]]]]]]]]] Hw.
  unfold write_file; rewrite He; simpl; rewrite Hh; simpl; rewrite Hl.
  rewrite (check_file_hash_first_entry f h before info after Hb Hn).
  replace (bytes_eqb h (hash info)) with true by (symmetry; apply bytes_eqb_eq; congruence).
  simpl; rewrite Hw; reflexivity.
Qed.

(** X9. When every requested file passes its check and can be written, the
    loop returns after writing the files one by one, in the order of the
    request, each under its base name with its extracted contents. *)
Theorem verified_files_are_all_written env m blocks files :
  (forall f, In f files ->
             exists filedata, hash_check_passes env m blocks f filedata
                              /\ write_error env (basename f) filedata = None) ->
  exists t,
    write_files env m blocks files = (t, Returned tt)
    /\ Forall2 (fun f w => fst w = basename f
                           /\ extract_file_from_blockdict env f m blocks = inr (snd w))
               files (written t).
Proof.
  induction files as [|f files IH]; intros Hall.
  - exists []; split; [reflexivity | constructor].
  - destruct (Hall f (or_introl eq_refl)) as [filedata [Hpass Hw]].
    destruct IH as [t [Hrun Hwritten]]; [intros g Hg; apply Hall; now right|].
    exists ([FileWrite (basename f) filedata; Print [AStr "wrote"; AStr (basename f)]] ++ t).
    rewrite write_files_cons, (write_file_passes _ _ _ _ _ Hpass Hw), bind_run, Hrun.
    split; [reflexivity|].
    simpl; constructor; [split; [reflexivity | exact (proj1 Hpass)] | exact Hwritten].
Qed.

Lemma verified_files_are_all_written_witness :
  exists t,
    write_files Samples.honest_env Samples.small_manifest [] ["b"; "a"] = (t, Returned tt)
    /\ Forall2 (fun f w => fst w = basename f
                           /\ extract_file_from_blockdict Samples.honest_env f
                                                          Samples.small_manifest [] = inr (snd w))
               ["b"; "a"] (written t).
Proof.
  apply (verified_files_are_all_written Samples.honest_env Samples.small_manifest [] ["b"; "a"]).
  intros f [<-|[<-|[]]].
  - exists Samples.data_b; split; [|reflexivity].
    split; [reflexivity | exists Samples.data_b; split; [reflexivity|]].
    exists [FileInfo "a" Samples.data_a], (FileInfo "b" Samples.data_b), [].
    split; [reflexivity | split; [|split; reflexivity]].
    intros other [<-|[]]; discriminate.
  - exists Samples.data_a; split; [|reflexivity].
    split; [reflexivity | exists Samples.data_a; split; [reflexivity|]].
    exists [], (FileInfo "a" Samples.data_a), [FileInfo "b" Samples.data_b].
    split; [reflexivity | split; [intros other [] | split; reflexivity]].
Defined.

(** *** The workers *)

Lemma request_loop_serves kind socket todo :
  (forall e, In e (raised_in todo) -> str_in "socked" (exc_str e) = true) ->
  exists t,
    request_loop kind socket todo = (t, Returned tt)
    /\ sent_payloads t = map (fun qr => payload (fst qr)) todo
    /\ notified t = failing todo.
Proof.
  induction todo as [|[q res] todo IH]; intros Hall.
  - exists []; repeat split.
  - destruct IH as [t [Hrun [Hsent Hnot]]].
    { intros e He; apply Hall; unfold raised_in; simpl; apply in_or_app; now right. }
    destruct res as [e|]; simpl.
    + rewrite (Hall e) by (unfold raised_in; simpl; now left).
      rewrite Hrun; simpl.
      eexists; split; [reflexivity|]; simpl; rewrite Hsent, Hnot; split; reflexivity.
    + rewrite Hrun; simpl.
      eexists; split; [reflexivity|]; simpl; rewrite Hsent, Hnot; split; reflexivity.
Qed.

Lemma request_loop_stops kind socket before q e after :
  (forall e', In e' (raised_in before) -> str_in "socked" (exc_str e') = true) ->
  str_in "socked" (exc_str e) = false ->
  exists t,
    request_loop kind socket (before ++ (q, Some e) :: after) = (t, Raised e)
    /\ sent_payloads t = map (fun qr => payload (fst qr)) before ++ [payload q]
    /\ notified t = failing before.
Proof.
  intros Hall Hother; induction before as [|[q' res] before IH].
  - simpl; rewrite Hother; simpl; eexists; split; [reflexivity | split; reflexivity].
  - destruct IH as [t [Hrun [Hsent Hnot]]].
    { intros e' He'; apply Hall; unfold raised_in; simpl; apply in_or_app; now right. }
    destruct res as [e'|]; cbn [app request_loop].
    + rewrite (Hall e') by (unfold raised_in; simpl; now left).
      rewrite Hrun; simpl.
      eexists; split; [reflexivity|]; simpl; rewrite Hsent, Hnot; split; reflexivity.
    + rewrite Hrun; simpl.
      eexists; split; [reflexivity|]; simpl; rewrite Hsent, Hnot; split; reflexivity.
Qed.

(** X10. A worker that meets only exceptions whose message contains
    [socked] serves all its requests: it sends every payload, in order,
    reports exactly the requests whose sending raised, and returns. This
    holds for the plain and for the chunked helper. *)
Theorem workers_serve_every_request first rest :
  (forall e, In e (raised_in (first :: rest)) -> str_in "socked" (exc_str e) = true) ->
  (exists t,
      _request_helper (first :: rest) = (t, Returned tt)
      /\ sent_payloads t = map (fun qr => payload (fst qr)) (first :: rest)
      /\ notified t = failing (first :: rest))
  /\ (exists t,
         _request_helper_chunked (first :: rest) = (t, Returned tt)
         /\ sent_payloads t = map (fun qr => payload (fst qr)) (first :: rest)
         /\ notified t = failing (first :: rest)).
Proof.
  intros Hall; destruct first as [q res]; split.
  - exact (request_loop_serves 0 (sock q) ((q, res) :: rest) Hall).
  - exact (request_loop_serves _ (sock q) ((q, res) :: rest) Hall).
Qed.

Lemma workers_serve_every_request_witness :
  exists t,
    _request_helper [(Samples.request_1, Some (Exn "Exception" "socked"));
                     (Samples.request_2, None)] = (t, Returned tt)
    /\ sent_payloads t = [b "q1"; b "q2"]
    /\ notified t = [Samples.request_1].
Proof.
  apply (proj1 (workers_serve_every_request
                  (Samples.request_1, Some (Exn "Exception" "socked"))
                  [(Samples.request_2, None)]
                  ltac:(intros e [<-|[]]; reflexivity))).
Defined.

(** X11. The first exception whose message does not contain [socked] ends
    the worker: the helper raises it, the request that met it is the last
    one sent and is not reported, and the requests after it are never
    sent. This holds for the plain and for the chunked helper. *)
Theorem workers_stop_at_the_first_other_exception before q e after :
  (forall e', In e' (raised_in before) -> str_in "socked" (exc_str e') = true) ->
  str_in "socked" (exc_str e) = false ->
  (exists t,
      _request_helper (before ++ (q, Some e) :: after) = (t, Raised e)
      /\ sent_payloads t = map (fun qr => payload (fst qr)) before ++ [payload q]
      /\ notified t = failing before)
  /\ (exists t,
         _request_helper_chunked (before ++ (q, Some e) :: after) = (t, Raised e)
         /\ sent_payloads t = map (fun qr => payload (fst qr)) before ++ [payload q]
         /\ notified t = failing before).
Proof.
  intros Hall Hother; split.
  - destruct before as [|[q' res] before].
    + exact (request_loop_stops 0 (sock q) [] q e after Hall Hother).
    + exact (request_loop_stops 0 (sock q') ((q', res) :: before) q e after Hall Hother).
  - destruct before as [|[q' res] before].
    + exact (request_loop_stops _ (sock q) [] q e after Hall Hother).
    + exact (request_loop_stops _ (sock q') ((q', res) :: before) q e after Hall Hother).
Qed.

Lemma workers_stop_at_the_first_other_exception_witness :
  exists t,
    _request_helper_chunked
      ([(Samples.request_1, @None exn)] ++ (Samples.request_2, Some Samples.reset_by_peer)
         :: [(Samples.request_1, @None exn)])
    = (t, Raised Samples.reset_by_peer)
    /\ sent_payloads t = map (fun qr => payload (fst qr)) [(Samples.request_1, @None exn)]
                         ++ [payload Samples.request_2]
    /\ notified t = failing [(Samples.request_1, @None exn)].
Proof.
  apply (proj2 (workers_stop_at_the_first_other_exception
                  [(Samples.request_1, @None exn)] Samples.request_2 Samples.reset_by_peer
                  [(Samples.request_1, @None exn)]
                  ltac:(intros e' [])
                  eq_refl)).
Defined.

(** *** Exit codes *)

Lemma load_manifest_never_exits env o t c : load_manifest env o <> (t, Exited c).
Proof.
  unfold load_manifest; destruct (nonempty (retrievemanifestfrom o)).
  - destruct (retrieve_rawmanifest env (retrievemanifestfrom o)) as [e|raw]; simpl;
      [discriminate|].
    destruct (parse_manifest env raw) as [e|m]; simpl; [discriminate|].
    destruct (write_error env (manifestfilename o) raw); simpl; discriminate.
  - destruct (read_file env (manifestfilename o)) as [e|raw]; simpl; [discriminate|].
    destruct (parse_manifest env raw) as [e|m]; simpl; discriminate.
Qed.

Lemma write_files_never_exit env m blocks files t c :
  write_files env m blocks files <> (t, Exited c).
Proof.
  revert t; induction files as [|f files IH]; intros t; [discriminate|].
  rewrite write_files_cons.
  destruct (write_file env m blocks f) as [tf [[]|c'|e]] eqn:Hf.
  - rewrite bind_run; destruct (write_files env m blocks files) as [t' r'] eqn:Hrest.
    simpl; intros H; injection H as _ ->; exact (IH _ eq_refl).
  - exfalso; exact (write_file_never_exits _ _ _ _ _ _ Hf).
  - discriminate.
Qed.

Lemma request_files_never_exit env o files r rng par m t c :
  request_files_from_mirrors env o files r rng par m <> (t, Exited c).
Proof.
  unfold request_files_from_mirrors.
  destruct (needed_blocks env m files []) as [e|needed]; [discriminate|].
  unfold lift; rewrite bind_ret.
  assert (Hblocks : forall tb cb,
             request_blocks_from_mirrors env o needed m r rng par <> (tb, Exited cb)).
  { intros tb cb; unfold request_blocks_from_mirrors.
    destruct (vendorip o) as [ip|];
      [destruct (retrieve_mirrorinfolist env ip None) as [e|mirrors]
      |destruct (retrieve_mirrorinfolist env (vendorhostname m) (Some (vendorport m)))
         as [e|mirrors]];
      simpl; try discriminate;
      destruct (run_requestor env mirrors needed m o r rng par); simpl; discriminate. }
  destruct (request_blocks_from_mirrors env o needed m r rng par) as [tb [blocks|cb|e]] eqn:Hb.
  - rewrite bind_run; destruct (write_files env m blocks files) as [t' r'] eqn:Hw.
    simpl; intros H; injection H as _ ->; exact (write_files_never_exit _ _ _ _ _ _ Hw).
  - exfalso; exact (Hblocks _ _ eq_refl).
  - discriminate.
Qed.

Lemma listing_check_passes (filelist files : list string) :
  (forall name, In name files -> In name filelist) ->
  for_each files (fun name => when (negb (str_mem name filelist))
                                   (print (not_listed name) ;; sys_exit 2))
  = ([], Returned tt).
Proof.
  induction files as [|f files IH]; intros Hall; [reflexivity|].
  cbn [for_each].
  replace (str_mem f filelist) with true
    by (symmetry; apply str_mem_In, Hall; now left).
  cbn [negb]; rewrite guard_skipped; apply IH; intros name Hin; apply Hall; now right.
Qed.

(** X21. [main] exits only in two ways. It exits with code 1 when it has
    the manifest, a redundancy is set and the manifest has fewer than [8k]
    blocks; it exits with code 2 when it has the manifest and a requested
    file is not listed in it. Nothing else in [main], and nothing in the
    retrieval of the files, exits the process. *)
Theorem main_exits_with_1_or_2 env o t c :
  main env o = (t, Exited c) ->
  exists t0 m,
    load_manifest env o = (t0, Returned m)
    /\ ((c = 1 /\ redundancy o <> None /\ blockcount m < numberofmirrors o * 8)
        \/ (c = 2 /\ exists name, In name (filestoretrieve o)
                                  /\ ~ In name (get_filenames_in_release env m))).
Proof.
  intros H.
  destruct (load_manifest env o) as [t0 [m|c'|e]] eqn:Hload.
  - exists t0, m; split; [reflexivity|].
    rewrite (main_after_load _ _ _ _ Hload) in H.
    destruct ((blockcount m <? numberofmirrors o * 8) && is_some (redundancy o)) eqn:Hc.
    + rewrite guard_fired in H; injection H as _ <-; left.
      apply andb_true_iff in Hc; destruct Hc as [Hlt Hr]; apply Z.ltb_lt in Hlt.
      split; [reflexivity | split; [|assumption]].
      destruct (redundancy o); [discriminate | discriminate].
    + rewrite guard_skipped in H.
      destruct (report_manifest_returns o m (get_filenames_in_release env m)) as [t1 [Hrep _]].
      rewrite Hrep, bind_run in H.
      destruct (forallb (fun name => str_mem name (get_filenames_in_release env m))
                        (filestoretrieve o)) eqn:Hall.
      * exfalso; rewrite forallb_forall in Hall.
        rewrite listing_check_passes in H
          by (intros name Hin; apply str_mem_In, Hall, Hin).
        rewrite bind_run in H; cbn [fst snd app] in H.
        destruct (0 <? List.length (filestoretrieve o))%nat.
        -- cbn [when] in H.
           destruct (request_files_from_mirrors env o (filestoretrieve o) (redundancy o)
                                                (rng o) (parallel o) m) as [tr rr] eqn:Hreq.
           simpl in H; injection H as _ ->.
           exact (request_files_never_exit _ _ _ _ _ _ _ _ _ Hreq).
        -- discriminate.
      * right.
        assert (Hmissing : exists name, In name (filestoretrieve o)
                                        /\ ~ In name (get_filenames_in_release env m)).
        { clear - Hall; induction (filestoretrieve o) as [|f files IH]; [discriminate|].
          simpl in Hall; apply andb_false_iff in Hall; destruct Hall as [Hf|Hrest].
          - exists f; split; [now left|].
            intros Hin; apply str_mem_In in Hin; congruence.
          - destruct (IH Hrest) as [name [Hin Hnot]]; exists name; split; [now right | auto]. }
        destruct (listing_check_exits _ _ Hmissing) as [missing [_ [_ Hexit]]].
        rewrite Hexit in H; simpl in H; injection H as _ <-.
        split; [reflexivity | exact Hmissing].
  - exfalso; exact (load_manifest_never_exits _ _ _ _ Hload).
  - unfold main in H; rewrite Hload in H; discriminate.
Qed.

Lemma main_exits_with_1_or_2_witness :
  exists t0 m,
    load_manifest Samples.honest_env
                  (set_filestoretrieve (Samples.opts "" 2 None false false) ["zzz"])
    = (t0, Returned m)
    /\ ((2 = 1 /\ redundancy (set_filestoretrieve (Samples.opts "" 2 None false false) ["zzz"])
                  <> None
         /\ blockcount m < 2 * 8)
        \/ (2 = 2 /\ exists name, In name ["zzz"]
                                  /\ ~ In name (get_filenames_in_release Samples.honest_env m))).
Proof.
  apply (main_exits_with_1_or_2 Samples.honest_env
           (set_filestoretrieve (Samples.opts "" 2 None false false) ["zzz"])
           [FileRead "manifest.dat"; Print (not_listed "zzz")] 2).
  reflexivity.
Defined.

End ClientMore.

(** ** More facts about the vendor *)

Module VendorMore.
Import Py Vendor VendorFacts.
Local Open Scope vendor_scope.

(** *** The mirror map as a dict *)

Lemma dict_get_set_same index e (d : mirrorinfodict) :
  dict_get index (dict_set index e d) = Some e.
Proof.
  induction d as [|[i e'] d IH]; simpl; [now rewrite String.eqb_refl|].
  destruct (String.eqb i index) eqn:E; simpl; [now rewrite String.eqb_refl | now rewrite E].
Qed.

Lemma dict_get_set_other index other e (d : mirrorinfodict) :
  other <> index -> dict_get other (dict_set index e d) = dict_get other d.
Proof.
  intros Hne; induction d as [|[i e'] d IH]; simpl.
  - destruct (String.eqb_spec index other); [congruence | reflexivity].
  - destruct (String.eqb_spec i index) as [->|Hi]; simpl.
    + destruct (String.eqb_spec index other); [congruence | reflexivity].
    + destruct (String.eqb i other); [reflexivity | exact IH].
Qed.

Lemma dict_set_length index e (d : mirrorinfodict) :
  List.length (dict_set index e d)
  = match dict_get index d with
    | Some _ => List.length d
    | None => S (List.length d)
    end.
Proof.
  induction d as [|[i e'] d IH]; simpl; [reflexivity|].
  destruct (String.eqb i index); simpl; [reflexivity|].
  rewrite IH; destruct (dict_get index d); reflexivity.
Qed.

Lemma startswith_app prefix rest : startswith (prefix ++ rest) prefix = true.
Proof.
  induction prefix as [|p prefix IH]; simpl; [destruct rest; reflexivity|].
  rewrite IH, andb_true_r; now apply Byte.byte_dec_lb.
Qed.

Lemma startswith_split x : forall prefix,
  startswith x prefix = true -> exists rest, x = prefix ++ rest.
Proof.
  induction x as [|c x IH]; intros [|p prefix]; simpl; try discriminate;
    try (intros _; eexists; reflexivity).
  intros H; apply andb_true_iff in H; destruct H as [Hc Hx].
  apply Byte.byte_dec_bl in Hc; subst p.
  destruct (IH _ Hx) as [rest ->]; now exists rest.
Qed.

(** A request that starts with [MIRRORADVERTISE] reaches the branch of lines
    213-258, whatever follows. *)
Lemma handle_advertisement env opts now lock_free remoteip remoteport payload :
  handle env opts now lock_free remoteip remoteport (b "MIRRORADVERTISE" ++ payload)
  = handle_mirroradvertise env opts now remoteip remoteport (b "MIRRORADVERTISE" ++ payload).
Proof.
  unfold handle.
  replace (bytes_eqb (b "MIRRORADVERTISE" ++ payload) (b "GET MANIFEST")) with false
    by reflexivity.
  replace (bytes_eqb (b "MIRRORADVERTISE" ++ payload) (b "MANIFEST UPDATE")) with false
    by reflexivity.
  replace (bytes_eqb (b "MIRRORADVERTISE" ++ payload) (b "GET MIRRORLIST")) with false
    by reflexivity.
  now rewrite startswith_app.
Qed.

(** *** Mirror advertisements *)

(** X12. After an advertisement that is accepted, the mirror map holds the
    advertised record with the time of the advertisement under ['ip:port'],
    every other key is as before, the map has grown by one entry if the key
    is new and not at all if it was there, and the stored mirror list is
    untouched until the next [GET MIRRORLIST]. *)
Theorem accepted_advertisement_is_stored
    env opts now lock_free remoteip remoteport payload d ip port st :
  Z.of_nat (List.length payload) <= maxmirrorinfo opts ->
  unpackb env payload = Unpacked (VDict d) ->
  item "ip" d = Some (VStr ip) ->
  item "port" d = Some port ->
  (checkmirrorip opts = true -> ip = remoteip) ->
  send_error env (MStr "OK") = None ->
  exists st' t,
    handle env opts now lock_free remoteip remoteport (b "MIRRORADVERTISE" ++ payload) st
    = (st', t, Returned tt)
    /\ In (Send (MStr "OK")) t
    /\ dict_get (ip ++ ":" ++ str env port)%string (_global_mirrorinfodict st')
       = Some (MirrorEntry (VDict d) now)
    /\ (forall other, other <> (ip ++ ":" ++ str env port)%string ->
                      dict_get other (_global_mirrorinfodict st')
                      = dict_get other (_global_mirrorinfodict st))
    /\ List.length (_global_mirrorinfodict st')
       = match dict_get (ip ++ ":" ++ str env port)%string (_global_mirrorinfodict st) with
         | Some _ => List.length (_global_mirrorinfodict st)
         | None => S (List.length (_global_mirrorinfodict st))
         end
    /\ _global_rawmirrorlist st' = _global_rawmirrorlist st.
Proof.
  intros Hlen Hun Hip Hport Hcheck Hsend.
  rewrite handle_advertisement,
    (advertise_accepted env opts now remoteip remoteport payload d ip port st
                        Hlen Hun Hip Hport Hcheck Hsend).
  eexists; eexists; split; [reflexivity|]; cbn [_global_mirrorinfodict _global_rawmirrorlist].
  split; [right; right; left; reflexivity|].
  split; [apply dict_get_set_same|].
  split; [intros other Hne; now apply dict_get_set_other|].
  split; [apply dict_set_length | reflexivity].
Qed.

Lemma accepted_advertisement_is_stored_witness :
  exists st' t,
    handle Samples.vendor_env Samples.vendor_options 1000%float true "10.0.0.1" 40000
           (b "MIRRORADVERTISE" ++ b "mirror_1") Samples.one_mirror
    = (st', t, Returned tt)
    /\ In (Send (MStr "OK")) t
    /\ dict_get "10.0.0.1:62294" (_global_mirrorinfodict st')
       = Some (MirrorEntry Samples.mirror_1 1000%float)
    /\ List.length (_global_mirrorinfodict st') = 1%nat.
Proof.
  destruct (accepted_advertisement_is_stored
              Samples.vendor_env Samples.vendor_options 1000%float true "10.0.0.1" 40000
              (b "mirror_1")
              [(VStr "ip", VStr "10.0.0.1"); (VStr "port", VInt 62294)]
              "10.0.0.1" (VInt 62294) Samples.one_mirror
              ltac:(simpl; lia) eq_refl eq_refl eq_refl ltac:(intros _; reflexivity) eq_refl)
    as [st' [t [Hrun [Hok [Hget [_ [Hlen _]]]]]]].
  exists st', t; repeat split; assumption.
Defined.

(** X13. An advertisement that is too large, that does not unpack, that is
    not a dict with the keys ['ip'] and ['port'], or, under
    [--checkmirrorip], whose ['ip'] is not the sender's, is answered with
    one message that starts with [Error] and leaves the mirror map and the
    stored mirror list as they were. *)
Theorem rejected_advertisement_changes_nothing
    env opts now lock_free remoteip remoteport payload st :
  (forall msg, send_error env (MStr msg) = None) ->
  Z.of_nat (List.length payload) > maxmirrorinfo opts
  \/ (exists e, unpackb env payload = UnpackError e)
  \/ (exists v, unpackb env payload = Unpacked v
                /\ forall d, v = VDict d -> item "ip" d = None \/ item "port" d = None)
  \/ (exists d, unpackb env payload = Unpacked (VDict d)
                /\ checkmirrorip opts = true
                /\ item "ip" d <> Some (VStr remoteip)) ->
  exists msg line,
    handle env opts now lock_free remoteip remoteport (b "MIRRORADVERTISE" ++ payload) st
    = (st,
       [Log (who remoteip remoteport ++ [LStr " mirror advertise"]);
        Send (MStr msg); Log line],
       Returned tt)
    /\ String.prefix "Error" msg = true.
Proof.
  intros Hsend Hcases; rewrite handle_advertisement; unfold handle_mirroradvertise.
  replace (skipn (List.length (b "MIRRORADVERTISE")) (b "MIRRORADVERTISE" ++ payload))
    with payload by reflexivity.
  assert (Hreply : forall msg line,
             bind (sendmessage env (MStr msg)) (fun _ => log line) st
             = (st, [Send (MStr msg); Log line], Returned tt)).
  { intros msg line; unfold bind, sendmessage, log, emit, bind; simpl.
    rewrite (Hsend msg); reflexivity. }
  assert (Hlog : forall (k : V unit) msg line,
             k st = (st, [Send (MStr msg); Log line], Returned tt) ->
             bind (log (who remoteip remoteport ++ [LStr " mirror advertise"])) (fun _ => k) st
             = (st, [Log (who remoteip remoteport ++ [LStr " mirror advertise"]);
                     Send (MStr msg); Log line], Returned tt)).
  { intros k msg line Hk; unfold bind at 1, log, emit; rewrite Hk; reflexivity. }
  destruct (Z.of_nat (List.length payload) >? maxmirrorinfo opts) eqn:Hbig.
  { eexists; eexists; split; [apply Hlog, Hreply | reflexivity]. }
  assert (Hfits : ~ Z.of_nat (List.length payload) > maxmirrorinfo opts).
  { rewrite Z.gtb_ltb in Hbig; apply Z.ltb_ge in Hbig; lia. }
  destruct (unpackb env payload) as [v|e|e] eqn:Hun.
  - assert (Hinvalid : exists msg line,
               bind (log (who remoteip remoteport ++ [LStr " mirror advertise"]))
                    (fun _ => invalid_format env remoteip remoteport) st
               = (st, [Log (who remoteip remoteport ++ [LStr " mirror advertise"]);
                       Send (MStr msg); Log line], Returned tt)
               /\ String.prefix "Error" msg = true).
    { eexists; eexists; split; [apply Hlog; unfold invalid_format; apply Hreply | reflexivity]. }
    destruct v as [| | | | | |l|d]; try exact Hinvalid.
    destruct (negb (has_key "ip" d) || negb (has_key "port" d)) eqn:Hkeys; [exact Hinvalid|].
    apply orb_false_elim in Hkeys; destruct Hkeys as [Hki Hkp].
    apply negb_false_iff in Hki; apply negb_false_iff in Hkp; unfold has_key in Hki, Hkp.
    destruct Hcases as [Hc|[[e Hc]|[[v [Hc Hnot]]|[d' [Hc [Hcheck Hip]]]]]];
      [contradiction | discriminate | |].
    + exfalso; injection Hc as <-.
      destruct (Hnot d eq_refl) as [H|H]; rewrite H in *; discriminate.
    + injection Hc as <-; rewrite Hcheck; cbn [andb].
      replace (differs (item "ip" d) remoteip) with true.
      * eexists; eexists; split; [apply Hlog, Hreply | reflexivity].
      * symmetry; destruct (item "ip" d) as [[| | | |x| | |]|]; try reflexivity.
        simpl; apply negb_true_iff, String.eqb_neq; congruence.
  - eexists; eexists; split; [apply Hlog, Hreply | reflexivity].
  - exfalso.
    destruct Hcases as [Hc|[[e' Hc]|[[v [Hc _]]|[d' [Hc _]]]]];
      [contradiction | discriminate | discriminate | discriminate].
Qed.

Lemma rejected_advertisement_changes_nothing_witness :
  exists msg line,
    handle Samples.vendor_env Samples.vendor_options 1000%float true "10.0.0.9" 40000
           (b "MIRRORADVERTISE" ++ b "junk") Samples.one_mirror
    = (Samples.one_mirror,
       [Log (who "10.0.0.9" 40000 ++ [LStr " mirror advertise"]);
        Send (MStr msg); Log line],
       Returned tt)
    /\ String.prefix "Error" msg = true.
Proof.
  apply (rejected_advertisement_changes_nothing Samples.vendor_env Samples.vendor_options
           1000%float true "10.0.0.9" 40000 (b "junk") Samples.one_mirror).
  - reflexivity.
  - right; left; eexists; reflexivity.
Defined.

(** *** The mirror list *)

Lemma get_mirrorlist_with_expired_mirror_witness :
  float_exact (mirrorexpirytime Samples.vendor_options)
  /\ exists index e,
    dict_get index [("10.0.0.1:62294", MirrorEntry Samples.mirror_1 0%float)] = Some e
    /\ expired Samples.vendor_options 1000%float e = true
    /\ handle Samples.vendor_env Samples.vendor_options 1000%float true "10.0.0.9" 40000
              (b "GET MIRRORLIST")
              (State [("10.0.0.1:62294", MirrorEntry Samples.mirror_1 0%float)]
                     (MPacked [Samples.mirror_1]))
       = (State (dict_del index [("10.0.0.1:62294", MirrorEntry Samples.mirror_1 0%float)])
                (MPacked [Samples.mirror_1]),
          [Log [LStr "RAID-PIR Vendor Removing Mirror due to timeout: "; LStr index]],
          Raised runtime_error).
Proof.
  assert (Hrange : float_exact (mirrorexpirytime Samples.vendor_options))
    by (unfold float_exact; simpl; lia).
  split; [exact Hrange|].
  apply (get_mirrorlist_with_expired_mirror Samples.vendor_env Samples.vendor_options
           1000%float "10.0.0.9" 40000
           [("10.0.0.1:62294", MirrorEntry Samples.mirror_1 0%float)]
           (MPacked [Samples.mirror_1]) Hrange).
  exists "10.0.0.1:62294", (MirrorEntry Samples.mirror_1 0%float).
  split; [left; reflexivity | split; reflexivity].
Defined.

Lemma get_mirrorlist_without_expired_mirror_witness :
  float_exact (mirrorexpirytime Samples.vendor_options)
  /\ handle Samples.vendor_env Samples.vendor_options 100%float true "10.0.0.9" 40000
         (b "GET MIRRORLIST")
         (State [("10.0.0.1:62294", MirrorEntry Samples.mirror_1 0%float)] (MPacked []))
  = (State [("10.0.0.1:62294", MirrorEntry Samples.mirror_1 0%float)]
           (MPacked [Samples.mirror_1]),
     [Send (MPacked [Samples.mirror_1]);
      Log (who "10.0.0.9" 40000 ++ [LStr " mirrorlist request"])],
     Returned tt).
Proof.
  assert (Hrange : float_exact (mirrorexpirytime Samples.vendor_options))
    by (unfold float_exact; simpl; lia).
  split; [exact Hrange|].
  apply (get_mirrorlist_without_expired_mirror Samples.vendor_env Samples.vendor_options
           100%float "10.0.0.9" 40000
           [("10.0.0.1:62294", MirrorEntry Samples.mirror_1 0%float)] (MPacked []) Hrange).
  - intros index [<-|[]]; eexists; split; reflexivity.
  - reflexivity.
Defined.

Lemma dict_set_lists index e (d : mirrorinfodict) :
  In (mirrorinfo e) (map (fun kv => mirrorinfo (snd kv)) (dict_set index e d)).
Proof.
  induction d as [|[i e'] d IH]; simpl; [now left|].
  destruct (String.eqb i index); simpl; [now left | now right].
Qed.

(** X16. With an expiry time that is an int of the float range
    ([float_exact]): a mirror whose advertisement was accepted is in the
    reply to the next [GET MIRRORLIST], provided that no mirror of the map
    has expired by then and the lock is free. *)
Theorem advertised_mirror_is_listed
    env opts now later lock_free remoteip remoteport clientip clientport payload d ip port st :
  float_exact (mirrorexpirytime opts) ->
  Z.of_nat (List.length payload) <= maxmirrorinfo opts ->
  unpackb env payload = Unpacked (VDict d) ->
  item "ip" d = Some (VStr ip) ->
  item "port" d = Some port ->
  (checkmirrorip opts = true -> ip = remoteip) ->
  (forall m, send_error env m = None) ->
  (forall index e,
      dict_get index (dict_set (ip ++ ":" ++ str env port)%string (MirrorEntry (VDict d) now)
                               (_global_mirrorinfodict st)) = Some e ->
      expired opts later e = false) ->
  exists st1 t1 st2 t2 listed,
    handle env opts now lock_free remoteip remoteport (b "MIRRORADVERTISE" ++ payload) st
    = (st1, t1, Returned tt)
    /\ handle env opts later true clientip clientport (b "GET MIRRORLIST") st1
       = (st2, t2, Returned tt)
    /\ In (Send (MPacked listed)) t2
    /\ In (VDict d) listed.
Proof.
  intros _ Hlen Hun Hip Hport Hcheck Hsend Hfresh.
  rewrite handle_advertisement,
    (advertise_accepted env opts now remoteip remoteport payload d ip port st
                        Hlen Hun Hip Hport Hcheck (Hsend _)).
  set (d1 := dict_set (ip ++ ":" ++ str env port)%string (MirrorEntry (VDict d) now)
                      (_global_mirrorinfodict st)) in *.
  assert (Hlist : handle env opts later true clientip clientport (b "GET MIRRORLIST")
                         (State d1 (_global_rawmirrorlist st))
                  = (State d1 (MPacked (map (fun kv => mirrorinfo (snd kv)) d1)),
                     [Send (MPacked (map (fun kv => mirrorinfo (snd kv)) d1));
                      Log (who clientip clientport ++ [LStr " mirrorlist request"])],
                     Returned tt)).
  { change (handle env opts later true clientip clientport (b "GET MIRRORLIST")
                   (State d1 (_global_rawmirrorlist st)))
      with (handle_get_mirrorlist env opts later true clientip clientport
                                  (State d1 (_global_rawmirrorlist st))).
    unfold handle_get_mirrorlist, _check_for_expired_mirrorinfo, bind at 1 2 3, get at 1; simpl.
    rewrite (expiry_loop_returns opts later d1 (_global_rawmirrorlist st) (keys d1)).
    - simpl; unfold sendmessage, bind, emit; simpl; rewrite Hsend; reflexivity.
    - intros index Hin; destruct (dict_get_keys index d1 Hin) as [e He].
      exists e; split; [assumption | now apply (Hfresh index)]. }
  do 5 eexists; split; [reflexivity | split; [exact Hlist | split; [now left|]]].
  exact (dict_set_lists _ (MirrorEntry (VDict d) now) _).
Qed.

Lemma advertised_mirror_is_listed_witness :
  float_exact (mirrorexpirytime Samples.vendor_options)
  /\ exists st1 t1 st2 t2 listed,
    handle Samples.vendor_env Samples.vendor_options 1000%float true "10.0.0.1" 40000
           (b "MIRRORADVERTISE" ++ b "mirror_1") (State [] (MPacked []))
    = (st1, t1, Returned tt)
    /\ handle Samples.vendor_env Samples.vendor_options 1100%float true "10.0.0.9" 40001
              (b "GET MIRRORLIST") st1
       = (st2, t2, Returned tt)
    /\ In (Send (MPacked listed)) t2
    /\ In Samples.mirror_1 listed.
Proof.
  assert (Hrange : float_exact (mirrorexpirytime Samples.vendor_options))
    by (unfold float_exact; simpl; lia).
  split; [exact Hrange|].
  apply (advertised_mirror_is_listed
           Samples.vendor_env Samples.vendor_options 1000%float 1100%float true
           "10.0.0.1" 40000 "10.0.0.9" 40001 (b "mirror_1")
           [(VStr "ip", VStr "10.0.0.1"); (VStr "port", VInt 62294)]
           "10.0.0.1" (VInt 62294) (State [] (MPacked []))
           Hrange ltac:(simpl; lia) eq_refl eq_refl eq_refl ltac:(intros _; reflexivity)
           ltac:(intros m; reflexivity)).
  intros index e H.
  change ((if String.eqb "10.0.0.1:62294" index
           then Some (MirrorEntry Samples.mirror_1 1000%float) else None) = Some e) in H.
  destruct (String.eqb "10.0.0.1:62294" index); [|discriminate].
  injection H as <-; reflexivity.
Defined.

Lemma dict_get_del_other index other (d : mirrorinfodict) :
  other <> index -> dict_get other (dict_del index d) = dict_get other d.
Proof.
  intros Hne; induction d as [|[i e] d IH]; simpl; [reflexivity|].
  destruct (String.eqb_spec i index) as [->|Hi]; simpl.
  - destruct (String.eqb_spec index other); [congruence | reflexivity].
  - destruct (String.eqb i other); [reflexivity | exact IH].
Qed.

(** X22. With an expiry time that is an int of the float range
    ([float_exact]): a mirror that has not expired is still in the mirror
    map after a [GET MIRRORLIST] request, with the same record, however the
    request ends. *)
Theorem unexpired_mirror_is_never_dropped
    env opts now lock_free remoteip remoteport st index e :
  float_exact (mirrorexpirytime opts) ->
  dict_get index (_global_mirrorinfodict st) = Some e ->
  expired opts now e = false ->
  dict_get index
           (_global_mirrorinfodict
              (fst (fst (handle env opts now lock_free remoteip remoteport
                                (b "GET MIRRORLIST") st))))
  = Some e.
Proof.
  intros _ Hget Hfresh; destruct st as [d raw]; cbn [_global_mirrorinfodict] in Hget.
  change (handle env opts now lock_free remoteip remoteport (b "GET MIRRORLIST") (State d raw))
    with (handle_get_mirrorlist env opts now lock_free remoteip remoteport (State d raw)).
  destruct lock_free.
  - destruct (existsb (fun k => match dict_get k d with
                                | Some e' => expired opts now e'
                                | None => false
                                end) (keys d)) eqn:Hany.
    + apply existsb_exists in Hany; destruct Hany as [k [Hk Hexp]].
      destruct (dict_get k d) as [ek|] eqn:Hgk; [|discriminate].
      destruct (expiry_loop_raises opts now d raw (keys d)
                  (fun i Hi => dict_get_keys i d Hi)
                  (ex_intro _ k (ex_intro _ ek (conj Hk (conj Hgk Hexp)))))
        as [j [ej [_ [Hgj [Hej Hrun]]]]].
      unfold handle_get_mirrorlist, _check_for_expired_mirrorinfo, bind at 1 2 3, get at 1; simpl.
      rewrite Hrun; simpl.
      rewrite dict_get_del_other; [assumption|].
      intros ->; rewrite Hget in Hgj; injection Hgj as <-; congruence.
    + assert (Hnone : forall i, In i (keys d) ->
                                exists e', dict_get i d = Some e' /\ expired opts now e' = false).
      { intros i Hi; destruct (dict_get_keys i d Hi) as [e' He']; exists e'; split; [assumption|].
        apply not_true_is_false; intros Hexp.
        assert (Hex : existsb (fun k => match dict_get k d with
                                        | Some e' => expired opts now e'
                                        | None => false
                                        end) (keys d) = true)
          by (apply existsb_exists; exists i; split; [assumption | now rewrite He']).
        congruence. }
      unfold handle_get_mirrorlist, _check_for_expired_mirrorinfo, bind at 1 2 3, get at 1; simpl.
      rewrite (expiry_loop_returns opts now d raw (keys d) Hnone); simpl.
      unfold sendmessage, bind, emit; simpl.
      destruct (send_error env (MPacked (map (fun kv => mirrorinfo (snd kv)) d))); exact Hget.
  - unfold handle_get_mirrorlist, _check_for_expired_mirrorinfo, sendmessage, bind, emit, get, ret;
      simpl.
    destruct (send_error env raw); exact Hget.
Qed.

Lemma unexpired_mirror_is_never_dropped_witness :
  float_exact (mirrorexpirytime Samples.vendor_options)
  /\ dict_get "10.0.0.2:62294"
           (_global_mirrorinfodict
              (fst (fst (handle Samples.vendor_env Samples.vendor_options 1000%float true
                                "10.0.0.9" 40000 (b "GET MIRRORLIST")
                                (State [("10.0.0.1:62294", MirrorEntry Samples.mirror_1 0%float);
                                        ("10.0.0.2:62294", MirrorEntry Samples.mirror_1 900%float)]
                                       (MPacked []))))))
  = Some (MirrorEntry Samples.mirror_1 900%float).
Proof.
  assert (Hrange : float_exact (mirrorexpirytime Samples.vendor_options))
    by (unfold float_exact; simpl; lia).
  split; [exact Hrange|].
  apply (unexpired_mirror_is_never_dropped Samples.vendor_env Samples.vendor_options
           1000%float true "10.0.0.9" 40000
           (State [("10.0.0.1:62294", MirrorEntry Samples.mirror_1 0%float);
                   ("10.0.0.2:62294", MirrorEntry Samples.mirror_1 900%float)]
                  (MPacked [])) "10.0.0.2:62294" (MirrorEntry Samples.mirror_1 900%float) Hrange);
    reflexivity.
Defined.

(** *** The other requests *)

Lemma notify_mirrors_keeps_state mirrorlist st :
  notify_mirrors mirrorlist st = (st, map NotifyMirror mirrorlist, Returned tt).
Proof.
  induction mirrorlist as [|mirror rest IH]; [reflexivity|].
  simpl; unfold bind, emit; rewrite IH; reflexivity.
Qed.

(** X17. Only [GET MIRRORLIST] and [MIRRORADVERTISE] requests can change
    what the vendor remembers: after any other request, also one that fails,
    the mirror map and the stored mirror list are as before. *)
Theorem other_requests_keep_the_mirror_map
    env opts now lock_free remoteip remoteport requeststring st :
  requeststring <> b "GET MIRRORLIST" ->
  (forall payload, requeststring <> b "MIRRORADVERTISE" ++ payload) ->
  fst (fst (handle env opts now lock_free remoteip remoteport requeststring st)) = st.
Proof.
  intros Hlist Hadv; unfold handle.
  destruct (bytes_eqb requeststring (b "GET MANIFEST")).
  { unfold handle_get_manifest, bind, emit, sendmessage, log, emit, bind; simpl.
    destruct (read_manifest env (manifestfilename opts)) as [e|raw]; [reflexivity|].
    simpl; destruct (send_error env (MRaw raw)); reflexivity. }
  destruct (bytes_eqb requeststring (b "MANIFEST UPDATE")).
  { unfold handle_manifest_update, bind, emit, get; simpl.
    destruct (read_manifest env (manifestfilename opts)) as [e|raw]; [reflexivity|].
    rewrite notify_mirrors_keeps_state; reflexivity. }
  destruct (bytes_eqb requeststring (b "GET MIRRORLIST")) eqn:Hl.
  { exfalso; apply Hlist; now apply ClientFacts.bytes_eqb_eq. }
  destruct (startswith requeststring (b "MIRRORADVERTISE")) eqn:Ha.
  { exfalso; destruct (startswith_split _ _ Ha) as [payload Hp]; exact (Hadv payload Hp). }
  destruct (bytes_eqb requeststring (b "HELLO")).
  { unfold handle_hello, bind, sendmessage, log, emit, bind; simpl.
    destruct (send_error env (MStr "VENDORHI!")); reflexivity. }
  reflexivity.
Qed.

Lemma other_requests_keep_the_mirror_map_witness :
  fst (fst (handle Samples.vendor_env Samples.vendor_options 1000%float true "10.0.0.9" 40000
                   (b "MANIFEST UPDATE") Samples.one_mirror))
  = Samples.one_mirror.
Proof.
  apply (other_requests_keep_the_mirror_map Samples.vendor_env Samples.vendor_options
           1000%float true "10.0.0.9" 40000 (b "MANIFEST UPDATE") Samples.one_mirror).
  - discriminate.
  - intros payload; discriminate.
Defined.

(** *** Start-up *)

(** X18. The vendor's [parse_options] returns exactly when
    [--maxmirrorinfo] is positive, no argument is left over and the log file
    opens, and it returns the options unchanged. When it refuses the
    options it exits with code 1 before the log file is opened. *)
Theorem vendor_starts_with_positive_maxmirrorinfo open_error parsed args :
  ((exists t o, parse_options open_error parsed args = (t, Returned o))
   <-> 0 < maxmirrorinfo (handler_options parsed)
       /\ args = []
       /\ open_error (logfilename parsed) = None)
  /\ (forall t o, parse_options open_error parsed args = (t, Returned o) -> o = parsed)
  /\ (maxmirrorinfo (handler_options parsed) <= 0 \/ args <> [] ->
      exists text shown, parse_options open_error parsed args
                         = ([Printed text shown], Exited 1)).
Proof.
  unfold parse_options.
  destruct (Z.leb_spec (maxmirrorinfo (handler_options parsed)) 0) as [Hle|Hgt].
  - split; [split|split].
    + intros [t [o H]]; discriminate.
    + intros [H _]; lia.
    + intros t o H; discriminate.
    + intros _; eexists; eexists; reflexivity.
  - destruct args as [|a args].
    + destruct (open_error (logfilename parsed)) as [e|] eqn:Hopen; split; [split| |split|].
      * intros [t [o H]]; discriminate.
      * intros [_ [_ H]]; discriminate.
      * split; [intros t o H; discriminate | intros [H|H]; [lia | congruence]].
      * intros _; auto.
      * intros _; eexists; eexists; reflexivity.
      * split; [intros t o H; injection H as _ <-; reflexivity
               | intros [H|H]; [lia | congruence]].
    + split; [split|split].
      * intros [t [o H]]; discriminate.
      * intros [_ [H _]]; discriminate.
      * intros t o H; discriminate.
      * intros _; eexists; eexists; reflexivity.
Qed.

Lemma vendor_starts_with_positive_maxmirrorinfo_witness :
  (exists t o,
      parse_options (fun _ => None) (Startup Samples.vendor_options false "vendor.log" None None) []
      = (t, Returned o))
  /\ exists text shown,
       parse_options (fun _ => None)
                     (Startup (Options "manifest.dat" 0 300 false) false "vendor.log" None None) []
       = ([Printed text shown], Exited 1).
Proof.
  split.
  - apply (proj1 (vendor_starts_with_positive_maxmirrorinfo
                    (fun _ => None)
                    (Startup Samples.vendor_options false "vendor.log" None None) [])).
    split; [simpl; lia | split; reflexivity].
  - apply (proj2 (proj2 (vendor_starts_with_positive_maxmirrorinfo
                           (fun _ => None)
                           (Startup (Options "manifest.dat" 0 300 false) false "vendor.log"
                                    None None) []))).
    left; simpl; lia.
Defined.

End VendorMore.

(** ** Facts about the manifest creator *)

Module CreateManifestFacts.
Import Py CreateManifest.
Local Open Scope manifest_scope.

(** An environment in which everything works; [int] knows two numbers. *)
Definition working_env : Env :=
  {| pirversion := "v0.9.5";
     int := fun s => if String.eqb s "4096" then inr 4096
                     else if String.eqb s "100" then inr 100
                     else inl (Exn "ValueError" "invalid literal for int() with base 10");
     create_manifest := fun _ => inr Samples.small_manifest;
     packb := fun _ => inr (b "manifest");
     open_error := fun _ => None;
     write_error := fun _ _ => None;
     write_db_error := fun _ _ => None |}.

Definition defaults : parsed_options := Parsed "manifest.dat" 62293 "sha256-raw" "nogaps" None.

Lemma parse_options_returned env given args t o :
  parse_options env given args = (t, Returned o) ->
  exists arg0 arg1 arg2,
    args = [arg0; arg1; arg2]
    /\ int env arg1 = inr (blocksize o)
    /\ 0 < blocksize o
    /\ blocksize o mod 64 = 0
    /\ 1 <= vendorport given <= 65535
    /\ t = []
    /\ o = Options given arg0 (blocksize o) arg2.
Proof.
  unfold parse_options.
  destruct args as [|arg0 [|arg1 [|arg2 [|extra args]]]]; try discriminate.
  destruct (int env arg1) as [e|size] eqn:Hint; [discriminate|].
  unfold lift, bind, ret.
  destruct (Z.leb_spec size 0) as [Hle|Hgt]; [discriminate|].
  destruct (Z.eqb_spec (size mod 64) 0) as [Hmod|Hmod]; [|discriminate].
  destruct (Z.leb_spec (vendorport given) 0) as [Hp|Hp]; [discriminate|].
  destruct (vendorport given >? 65535) eqn:Hq; [discriminate|].
  cbn [negb orb]; intros H; injection H as <- <-.
  exists arg0, arg1, arg2; cbn [blocksize].
  rewrite Z.gtb_ltb in Hq; apply Z.ltb_ge in Hq.
  repeat split; auto; lia.
Qed.

(** X19. [parse_options] of the manifest creator returns exactly when there
    are three positional arguments, the second one reads as an int that is
    positive and divisible by 64, and the vendor port is between 1 and
    65535; it then prints nothing and returns the options with the root
    directory, that block size and the vendor host name. *)
Theorem manifest_options_are_valid env given args t o :
  parse_options env given args = (t, Returned o)
  <-> exists arg0 arg1 arg2,
        args = [arg0; arg1; arg2]
        /\ int env arg1 = inr (blocksize o)
        /\ 0 < blocksize o
        /\ blocksize o mod 64 = 0
        /\ 1 <= vendorport given <= 65535
        /\ t = []
        /\ o = Options given arg0 (blocksize o) arg2.
Proof.
  split; [apply parse_options_returned|].
  intros [arg0 [arg1 [arg2 [-> [Hint [Hpos [Hmod [[Hp1 Hp2] [-> Ho]]]]]]]]].
  unfold parse_options; rewrite Hint; unfold lift, bind, ret.
  replace (blocksize o <=? 0) with false by (symmetry; apply Z.leb_gt; lia).
  rewrite Hmod; cbn [Z.eqb negb].
  replace (vendorport given <=? 0) with false by (symmetry; apply Z.leb_gt; lia).
  replace (vendorport given >? 65535) with false
    by (symmetry; rewrite Z.gtb_ltb; apply Z.ltb_ge; lia).
  cbn [orb]; rewrite <- Ho; reflexivity.
Qed.

Lemma manifest_options_are_valid_witness :
  exists arg0 arg1 arg2,
    ["files"; "4096"; "vendor.example.org"] = [arg0; arg1; arg2]
    /\ int working_env arg1 = inr 4096
    /\ 0 < 4096
    /\ 4096 mod 64 = 0
    /\ 1 <= vendorport defaults <= 65535.
Proof.
  destruct (proj1 (manifest_options_are_valid working_env defaults
                     ["files"; "4096"; "vendor.example.org"] []
                     (Options defaults "files" 4096 "vendor.example.org")) eq_refl)
    as [arg0 [arg1 [arg2 [H1 [H2 [H3 [H4 [H5 _]]]]]]]].
  exists arg0, arg1, arg2; repeat split; auto; apply H5.
Defined.

(** X20. The manifest creator opens the manifest file only after the options
    were accepted and [lib.create_manifest] returned, and what it writes
    into the file is the packed manifest of those options. The database is
    written only when [-d] names one, and after the manifest. *)
Theorem manifest_file_is_written_last env given args :
  (forall name,
      In (ManifestOpen name) (fst (run env given args)) ->
      name = manifestfile given
      /\ exists o m, parse_options env given args = ([], Returned o)
                     /\ create_manifest env o = inr m)
  /\ (forall name raw,
         In (ManifestWrite name raw) (fst (run env given args)) ->
         name = manifestfile given
         /\ exists o m, parse_options env given args = ([], Returned o)
                        /\ create_manifest env o = inr m
                        /\ packb env m = inr raw)
  /\ (forall root db,
         In (DatabaseWrite root db) (fst (run env given args)) ->
         database given = Some db
         /\ exists raw, In (ManifestWrite (manifestfile given) raw) (fst (run env given args))).
Proof.
  assert (Hshape :
            (exists t r, run env given args
                         = (Print [AStr "RAID-PIR create manifest"; AStr (pirversion env)] :: t, r)
                         /\ forall x, In x t -> exists args', x = Print args')
            \/ exists o m,
                 parse_options env given args = ([], Returned o)
                 /\ create_manifest env o = inr m
                 /\ parsed o = given
                 /\ ((exists e, run env given args
                                = ([Print [AStr "RAID-PIR create manifest"; AStr (pirversion env)];
                                    ManifestOpen (manifestfile given)], Raised e))
                     \/ exists raw tail r,
                          packb env m = inr raw
                          /\ run env given args
                             = ([Print [AStr "RAID-PIR create manifest"; AStr (pirversion env)];
                                 ManifestOpen (manifestfile given);
                                 ManifestWrite (manifestfile given) raw] ++ tail, r)
                          /\ forall x, In x tail ->
                                       (exists args', x = Print args')
                                       \/ exists db, database given = Some db
                                                     /\ x = DatabaseWrite (rootdir o) db)).
  { unfold run.
    destruct (parse_options env given args) as [tp [o|c|e]] eqn:Hparse.
    - pose proof (parse_options_returned env given args tp o Hparse)
        as [arg0 [arg1 [arg2 [_ [_ [_ [_ [_ [-> Ho]]]]]]]]].
      assert (Hgiven : parsed o = given) by (rewrite Ho; reflexivity).
      simpl.
      destruct (create_manifest env o) as [e|m] eqn:Hcreate; simpl.
      + left; eexists; eexists; split; [reflexivity | intros x []].
      + right; exists o, m; split; [reflexivity | split; [exact Hcreate | split; [exact Hgiven|]]].
        rewrite Hgiven.
        destruct (open_error env (manifestfile given)) as [e|]; simpl.
        { left; eexists; reflexivity. }
        destruct (packb env m) as [e|raw]; simpl.
        { left; eexists; reflexivity. }
        right; exists raw.
        destruct (write_error env (manifestfile given) raw) as [e|]; simpl.
        { exists [], (Raised e); split; [reflexivity | split; [reflexivity | intros x []]]. }
        destruct (database given) as [db|] eqn:Hdb; simpl.
        * destruct (write_db_error env (rootdir o) db) as [e|]; simpl;
            eexists; eexists; (split; [reflexivity | split; [reflexivity|]]).
          -- intros x [<-|[]]; right; exists db; auto.
          -- intros x [<-|[<-|[]]]; [right; exists db; auto | left; eexists; reflexivity].
        * eexists; eexists; split; [reflexivity | split; [reflexivity|]].
          intros x [<-|[]]; left; eexists; reflexivity.
    - left; simpl; eexists; eexists; split; [reflexivity|].
      intros x Hin; clear - Hparse Hin; unfold parse_options in Hparse.
      assert (Hrefuse : forall text, (tp, Exited c) = @refuse options text ->
                                     exists args', x = Print args').
      { intros text H; injection H as -> _; destruct Hin as [<-|[]]; eexists; reflexivity. }
      destruct args as [|arg0 [|arg1 [|arg2 [|extra args]]]];
        try (symmetry in Hparse; exact (Hrefuse _ Hparse)).
      destruct (int env arg1) as [e|size]; [discriminate|].
      unfold lift, bind, ret in Hparse.
      destruct (size <=? 0);
        [symmetry in Hparse; exact (Hrefuse _ Hparse)|].
      destruct (negb (size mod 64 =? 0));
        [symmetry in Hparse; exact (Hrefuse _ Hparse)|].
      destruct ((vendorport given <=? 0) || (vendorport given >? 65535));
        [symmetry in Hparse; exact (Hrefuse _ Hparse) | discriminate].
    - left; simpl; eexists; eexists; split; [reflexivity|].
      intros x Hin; clear - Hparse Hin; unfold parse_options in Hparse.
      assert (Hrefuse : forall text, refuse text <> (tp, @Raised options e))
        by (intros text; discriminate).
      destruct args as [|arg0 [|arg1 [|arg2 [|extra args]]]];
        try (exfalso; exact (Hrefuse _ Hparse)).
      destruct (int env arg1) as [e'|size]; [injection Hparse as <- _; destruct Hin|].
      unfold lift, bind, ret in Hparse.
      destruct (size <=? 0); [exfalso; exact (Hrefuse _ Hparse)|].
      destruct (negb (size mod 64 =? 0)); [exfalso; exact (Hrefuse _ Hparse)|].
      destruct ((vendorport given <=? 0) || (vendorport given >? 65535));
        [exfalso; exact (Hrefuse _ Hparse) | discriminate]. }
  destruct Hshape as [[t [r [Hrun Hprints]]]|[o [m [Hparse [Hcreate [Hgiven Hrest]]]]]].
  - rewrite Hrun; simpl; split; [|split].
    + intros name [H|H]; [discriminate | destruct (Hprints _ H); discriminate].
    + intros name raw [H|H]; [discriminate | destruct (Hprints _ H); discriminate].
    + intros root db [H|H]; [discriminate | destruct (Hprints _ H); discriminate].
  - destruct Hrest as [[e Hrun]|[raw [tail [r [Hpack [Hrun Htail]]]]]]; rewrite Hrun; simpl.
    + split; [|split].
      * intros name [H|[H|[]]]; [discriminate|]; injection H as <-; eauto.
      * intros name raw [H|[H|[]]]; discriminate.
      * intros root db [H|[H|[]]]; discriminate.
    + split; [|split].
      * intros name [H|[H|[H|H]]]; try discriminate; [injection H as <-; eauto|].
        destruct (Htail _ H) as [[? Hx]|[? [_ Hx]]]; discriminate.
      * intros name raw' [H|[H|[H|H]]]; try discriminate.
        -- injection H as <- <-; split; [reflexivity | exists o, m; auto].
        -- destruct (Htail _ H) as [[? Hx]|[? [_ Hx]]]; discriminate.
      * intros root db [H|[H|[H|H]]]; try discriminate.
        destruct (Htail _ H) as [[? Hx]|[db' [Hdb Hx]]]; [discriminate|].
        injection Hx as -> ->; split; [exact Hdb | exists raw; right; right; now left].
Qed.

Lemma manifest_file_is_written_last_witness :
  In (DatabaseWrite "files" "files.db")
     (fst (run working_env (Parsed "manifest.dat" 62293 "sha256-raw" "nogaps" (Some "files.db"))
               ["files"; "4096"; "vendor.example.org"]))
  /\ exists raw,
       In (ManifestWrite "manifest.dat" raw)
          (fst (run working_env
                    (Parsed "manifest.dat" 62293 "sha256-raw" "nogaps" (Some "files.db"))
                    ["files"; "4096"; "vendor.example.org"])).
Proof.
  assert (Hin : In (DatabaseWrite "files" "files.db")
                   (fst (run working_env
                             (Parsed "manifest.dat" 62293 "sha256-raw" "nogaps" (Some "files.db"))
                             ["files"; "4096"; "vendor.example.org"]))).
  { simpl; right; right; right; left; reflexivity. }
  split; [exact Hin|].
  exact (proj2 (proj2 (proj2 (manifest_file_is_written_last
                                working_env
                                (Parsed "manifest.dat" 62293 "sha256-raw" "nogaps" (Some "files.db"))
                                ["files"; "4096"; "vendor.example.org"]))
                      "files" "files.db" Hin)).
Defined.

End CreateManifestFacts.
